(** * The (M, N) periodic-review inventory simulator

    A shallow embedding of [simulation.py]: the day loop of
    [simulate_policy], the discrete sampler it calls, and the result it
    returns, followed by the properties of the per-day ledger.

    Python [int] is [Z]; Python [float] is an IEEE-754 binary64 value, that
    is Rocq's primitive [float]; an exception is the [Raise] branch of
    [result].  NumPy's generator is not part of the repository: it enters
    through the interface [NumpyRandom]. *)

From Stdlib Require Import ZArith List Bool Lia.
From Stdlib Require Import Floats.
Import ListNotations.

Open Scope Z_scope.

(** ** Exceptions *)

Inductive PyError : Type :=
  | ValueError
  | ZeroDivisionError
  | OverflowError.

Inductive result (A : Type) : Type :=
  | Ok (a : A)
  | Raise (e : PyError).

Arguments Ok {A} a.
Arguments Raise {A} e.

Definition bind {A B : Type} (c : result A) (k : A -> result B) : result B :=
  match c with
  | Ok a => k a
  | Raise e => Raise e
  end.

Notation "x <- c1 ;; c2" := (bind c1 (fun x => c2))
  (at level 61, c1 at next level, right associativity).
Notation "' pat <- c1 ;; c2" :=
  (bind c1 (fun x => match x with pat => c2 end))
  (at level 61, pat pattern, c1 at next level, right associativity).

(** ** Python arithmetic *)

(** [a // b] and [a % b] on integers: floor division, the remainder has the
    sign of the divisor; both raise on a zero divisor. *)
Definition py_floordiv (a b : Z) : result Z :=
  if b =? 0 then Raise ZeroDivisionError else Ok (a / b).

Definition py_mod (a b : Z) : result Z :=
  if b =? 0 then Raise ZeroDivisionError else Ok (a mod b).

(** The binary64 value nearest to an integer, ties to even: the value of
    [float(z)] when the conversion succeeds. *)
Definition float_of_int (z : Z) : float :=
  SF2Prim (binary_normalize prec emax z 0 false).

(** The first integer whose nearest binary64 value is beyond the largest
    float: half way between the largest float, [2^1024 - 2^971], and
    [2^1024]. *)
Definition float_int_bound : Z := 2 ^ 1024 - 2 ^ 970.

Arguments float_int_bound : simpl never.

Definition fits_float (z : Z) : bool := Z.abs z <? float_int_bound.

(** [float(z)], as CPython converts an [int] operand that meets a [float]:
    OverflowError ("int too large to convert to float") from
    [float_int_bound] on, in either sign. *)
Definition py_float (z : Z) : result float :=
  if fits_float z then Ok (float_of_int z) else Raise OverflowError.

(** The value of [z * x] for an integer [z] that converts. *)
Definition int_mul_float (z : Z) (x : float) : float :=
  (float_of_int z * x)%float.

(** [z * x] with an integer [z] and a float [x]: [z] is converted first. *)
Definition py_mul (z : Z) (x : float) : result float :=
  f <- py_float z ;;
  Ok (f * x)%float.

(** [x / n] with a float [x] and an integer [n]: [n] is converted first,
    then tested for zero. *)
Definition py_truediv (x : float) (n : Z) : result float :=
  c <- py_float n ;;
  if n =? 0 then Raise ZeroDivisionError else Ok (x / c)%float.

(** A cost parameter in the sense of the data model: a non-negative real
    number, that is a finite binary64 value with a clear sign bit. *)
Definition is_cost (x : float) : bool :=
  match classify x with
  | PZero | PNormal | PSubn => true
  | _ => false
  end.

(** The sum of a column of floats, accumulated from [0.0] in row order. *)
Definition float_sum (xs : list float) : float :=
  fold_left PrimFloat.add xs 0%float.

(** [range(lo, hi)] *)
Definition range (lo hi : Z) : list Z :=
  map (fun i => lo + Z.of_nat i) (seq 0 (Z.to_nat (hi - lo))).

(** ** Data classes *)

Record CostParameters : Type := {
  holding_cost : float;
  shortage_cost : float;
  unit_cost : float;
  ordering_cost : float
}.

Record InitialState : Type := {
  on_hand : Z;
  outstanding_qty : Z;
  lead_remaining : Z
}.

Record DiscreteDistributions : Type := {
  demand_values : list Z;
  demand_probs : list float;
  lead_values : list Z;
  lead_probs : list float
}.

(** One row of the returned data frame, columns in the order of the source. *)
Record DayRecord : Type := {
  Day : Z;
  Cycle : Z;
  On_hand_start : Z;
  Incoming_today : Z;
  Demand : Z;
  Sales : Z;
  Ending_inventory : Z;
  Shortage_qty : Z;
  Holding_cost : float;
  Shortage_cost : float;
  Order_qty : Z;
  Lead_time_new_order : option Z;
  Lead_remaining_end : Z;
  Purchasing_cost : float;
  Ordering_cost : float;
  Total_cost_day : float
}.

(** ** NumPy's random generator, as an interface

    [np.random.default_rng(seed)] builds a generator from an integer seed
    ([seeded], which may reject the seed) or, with [seed=None], from the
    operating system's entropy ([unseeded]).  [Generator.choice(a, p=p)]
    first validates [a] and [p] ([accepts]: same size, non-empty,
    probabilities non-negative and summing to 1 within tolerance) and raises
    ValueError when they fail; otherwise it draws one element of [a] and
    advances the generator ([draw]). *)
Class NumpyRandom : Type := {
  Generator : Type;
  Entropy : Type;
  seeded : Z -> result Generator;
  unseeded : Entropy -> Generator;
  accepts : list Z -> list float -> bool;
  draw : list Z -> list float -> Generator -> Z * Generator;
  draw_in : forall a p g, accepts a p = true -> In (fst (draw a p g)) a;
  accepts_size : forall a p, accepts a p = true -> length a = length p
}.

Section Simulation.

Context `{NP : NumpyRandom}.

Definition default_rng (os : Entropy) (seed : option Z) : result Generator :=
  match seed with
  | Some s => seeded s
  | None => Ok (unseeded os)
  end.

Definition choice (a : list Z) (p : list float) (rng : Generator)
  : result (Z * Generator) :=
  if accepts a p then Ok (draw a p rng) else Raise ValueError.

Definition _sample_from_discrete (values : list Z) (probs : list float)
  (rng : Generator) : result (Z * Generator) :=
  choice values probs rng.

(** ** The day loop *)

(** The mutable locals of [simulate_policy] that live across iterations. *)
Record Locals : Type := {
  l_on_hand : Z;
  l_outstanding_qty : Z;
  l_lead_remaining : Z;
  l_rng : Generator;
  l_records : list DayRecord;
  l_total_cost : float
}.

(** Step 1: receive the outstanding order if its lead time has expired.
    Returns [incoming_today], [on_hand] and [outstanding_qty] after it. *)
Definition receive_order (on_hand outstanding_qty lead_remaining : Z)
  : Z * Z * Z :=
  if (lead_remaining =? 0) && (outstanding_qty >? 0)
  then (outstanding_qty, on_hand + outstanding_qty, 0)
  else (0, on_hand, outstanding_qty).

(** Step 6: the test that guards an order. *)
Definition order_due (is_review_day : bool)
  (ending_inventory M outstanding_qty : Z) : bool :=
  is_review_day && (ending_inventory <? M) && (outstanding_qty =? 0).

(** Step 7: one day less to wait for an order in flight. *)
Definition decrease_lead (outstanding_qty lead_remaining : Z) : Z :=
  if (outstanding_qty >? 0) && (lead_remaining >? 0)
  then lead_remaining - 1
  else lead_remaining.

(** The body of [for day in range(1, num_days + 1)]. *)
Definition day_step (M N : Z) (costs : CostParameters)
  (distributions : DiscreteDistributions) (day : Z) (st : Locals)
  : result Locals :=
  q <- py_floordiv (day - 1) N ;;
  let cycle := q + 1 in
  let '(incoming_today, on_hand, outstanding_qty) :=
    receive_order (l_on_hand st) (l_outstanding_qty st) (l_lead_remaining st) in
  let lead_remaining := l_lead_remaining st in
  let on_hand_start := on_hand in
  '(demand, rng) <- _sample_from_discrete (demand_values distributions)
                      (demand_probs distributions) (l_rng st) ;;
  let sales := Z.min on_hand demand in
  let shortage_qty := Z.max (demand - on_hand) 0 in
  let ending_inventory := on_hand - sales in
  holding <- py_mul ending_inventory (holding_cost costs) ;;
  shortage <- py_mul shortage_qty (shortage_cost costs) ;;
  r <- py_mod day N ;;
  let is_review_day := r =? 0 in
  '(order_qty, lead_time_assigned, outstanding_qty, lead_remaining,
    purchasing, ordering, rng) <-
    (if order_due is_review_day ending_inventory M outstanding_qty
     then
       let order_qty := M - ending_inventory in
       '(lead_time_assigned, rng) <- _sample_from_discrete
                                       (lead_values distributions)
                                       (lead_probs distributions) rng ;;
       purchasing <- py_mul order_qty (unit_cost costs) ;;
       Ok (order_qty, Some lead_time_assigned, order_qty, lead_time_assigned,
           purchasing, ordering_cost costs, rng)
     else
       Ok (0, None, outstanding_qty, lead_remaining, 0%float, 0%float, rng)) ;;
  let lead_remaining := decrease_lead outstanding_qty lead_remaining in
  let day_cost := (holding + shortage + purchasing + ordering)%float in
  Ok {| l_on_hand := ending_inventory;
        l_outstanding_qty := outstanding_qty;
        l_lead_remaining := lead_remaining;
        l_rng := rng;
        l_total_cost := (l_total_cost st + day_cost)%float;
        l_records := l_records st ++
          [ {| Day := day;
               Cycle := cycle;
               On_hand_start := on_hand_start;
               Incoming_today := incoming_today;
               Demand := demand;
               Sales := sales;
               Ending_inventory := ending_inventory;
               Shortage_qty := shortage_qty;
               Holding_cost := holding;
               Shortage_cost := shortage;
               Order_qty := order_qty;
               Lead_time_new_order := lead_time_assigned;
               Lead_remaining_end := lead_remaining;
               Purchasing_cost := purchasing;
               Ordering_cost := ordering;
               Total_cost_day := day_cost |} ] |}.

Fixpoint for_days (M N : Z) (costs : CostParameters)
  (distributions : DiscreteDistributions) (days : list Z) (st : Locals)
  : result Locals :=
  match days with
  | [] => Ok st
  | day :: rest =>
      st' <- day_step M N costs distributions day st ;;
      for_days M N costs distributions rest st'
  end.

Definition initial_locals (initial_state : InitialState) (rng : Generator)
  : Locals :=
  {| l_on_hand := on_hand initial_state;
     l_outstanding_qty := outstanding_qty initial_state;
     l_lead_remaining := lead_remaining initial_state;
     l_rng := rng;
     l_records := [];
     l_total_cost := 0%float |}.

Definition simulate_policy (os : Entropy) (M N num_cycles : Z)
  (costs : CostParameters) (initial_state : InitialState)
  (distributions : DiscreteDistributions) (seed : option Z)
  : result (list DayRecord * float * float) :=
  rng <- default_rng os seed ;;
  let num_days := N * num_cycles in
  st <- for_days M N costs distributions (range 1 (num_days + 1))
          (initial_locals initial_state rng) ;;
  let df := l_records st in
  avg_cost_per_cycle <- py_truediv (l_total_cost st) num_cycles ;;
  Ok (df, l_total_cost st, avg_cost_per_cycle).

(** ** The run, seen from outside the loop *)

(** [day_row M N costs distributions day st r st']: the iteration for [day],
    entered with the locals [st], appends the row [r] and leaves the locals
    [st']. *)
Definition day_row (M N : Z) (costs : CostParameters)
  (distributions : DiscreteDistributions) (day : Z) (st : Locals)
  (r : DayRecord) (st' : Locals) : Prop :=
  day_step M N costs distributions day st = Ok st'
  /\ l_records st' = l_records st ++ [r].

(** The rows of consecutive iterations, with the locals before and after. *)
Inductive steps (M N : Z) (costs : CostParameters)
  (distributions : DiscreteDistributions)
  : list Z -> Locals -> list DayRecord -> Locals -> Prop :=
  | steps_nil (st : Locals) : steps M N costs distributions [] st [] st
  | steps_cons (day : Z) (rest : list Z) (st st1 st2 : Locals)
      (r : DayRecord) (rows : list DayRecord) :
      day_row M N costs distributions day st r st1 ->
      steps M N costs distributions rest st1 rows st2 ->
      steps M N costs distributions (day :: rest) st (r :: rows) st2.

(** [outstanding_qty] as the ordering decision of the day reads it: after
    the arrival of step 1. *)
Definition outstanding_at_decision (st : Locals) : Z :=
  snd (receive_order (l_on_hand st) (l_outstanding_qty st)
         (l_lead_remaining st)).

(** ** Configurations *)

Definition valid_costs (costs : CostParameters) : bool :=
  is_cost (holding_cost costs) && is_cost (shortage_cost costs)
  && is_cost (unit_cost costs) && is_cost (ordering_cost costs).

(** The preconditions of the entry point: [N >= 1], [M >= 0],
    [num_cycles >= 1], non-negative costs and initial quantities, and two
    distributions the sampler accepts. *)
Record valid_config (M N num_cycles : Z) (costs : CostParameters)
  (initial_state : InitialState) (distributions : DiscreteDistributions)
  : Prop := {
  valid_N : 1 <= N;
  valid_M : 0 <= M;
  valid_num_cycles : 1 <= num_cycles;
  valid_cost_parameters : valid_costs costs = true;
  valid_on_hand : 0 <= on_hand initial_state;
  valid_outstanding_qty : 0 <= outstanding_qty initial_state;
  valid_lead_remaining : 0 <= lead_remaining initial_state;
  valid_demand :
    accepts (demand_values distributions) (demand_probs distributions) = true;
  valid_lead :
    accepts (lead_values distributions) (lead_probs distributions) = true
}.




(** A configuration whose integers are in the range of the floats: [M], the
    number of cycles, the initial inventory position and the demand values,
    which are not negative, are below [float_int_bound]. *)
Record float_sized (M num_cycles : Z) (initial_state : InitialState)
  (distributions : DiscreteDistributions) : Prop := {
  float_M : M < float_int_bound;
  float_num_cycles : Z.abs num_cycles < float_int_bound;
  float_position :
    on_hand initial_state + outstanding_qty initial_state < float_int_bound;
  float_demand :
    Forall (fun v => 0 <= v < float_int_bound) (demand_values distributions)
}.

End Simulation.

(** ** A reference generator

    A concrete generator, used to run the simulator: a 64-bit linear
    congruential stream, and [choice] by inversion of the cumulative
    distribution as NumPy does it (cumulative sum, normalised by its last
    entry, searched from the right with one uniform draw). *)
Module RefNumpy.

Definition next_state (g : Z) : Z :=
  (6364136223846793005 * g + 1442695040888963407) mod 2 ^ 64.

(** One uniform draw in [0, 1): the top 53 bits of the next state. *)
Definition random (g : Z) : float * Z :=
  let g' := next_state g in
  ((float_of_int (g' / 2 ^ 11) * 0x1p-53)%float, g').

Fixpoint cumsum (acc : float) (p : list float) : list float :=
  match p with
  | [] => []
  | x :: p' => let acc' := (acc + x)%float in acc' :: cumsum acc' p'
  end.

Fixpoint searchsorted_right (cdf : list float) (u : float) : nat :=
  match cdf with
  | [] => O
  | c :: cdf' => if (u <? c)%float then O else S (searchsorted_right cdf' u)
  end.

Definition atol : float := 0x1p-26%float.

Definition accepts (a : list Z) (p : list float) : bool :=
  (length a =? length p)%nat
  && negb (length a =? 0)%nat
  && forallb (fun x => (0 <=? x)%float) p
  && (abs (float_sum p - 1) <=? atol)%float.

Definition draw (a : list Z) (p : list float) (g : Z) : Z * Z :=
  let '(u, g') := random g in
  let cdf := cumsum 0%float p in
  let total := last cdf 1%float in
  let cdf := map (fun c => (c / total)%float) cdf in
  (nth (searchsorted_right cdf u) a (hd 0 a), g').

Definition seeded (s : Z) : result Z :=
  if s <? 0 then Raise ValueError else Ok (s mod 2 ^ 64).

Definition unseeded (e : Z) : Z := e mod 2 ^ 64.

End RefNumpy.

(** ** The configuration of [config.py] *)

(** The probabilities are the binary64 values of the decimal constants of
    the source: 0.10, 0.25, 0.35, 0.21, 0.09 for the demand and 0.60, 0.30,
    0.10 for the lead time. *)
Definition DEMAND_VALUES : list Z := [0; 1; 2; 3; 4].
Definition DEMAND_PROBS : list float :=
  [0x1.999999999999ap-4; 0.25; 0x1.6666666666666p-2; 0x1.ae147ae147ae1p-3;
   0x1.70a3d70a3d70ap-4]%float.
Definition LEAD_VALUES : list Z := [1; 2; 3].
Definition LEAD_PROBS : list float :=
  [0x1.3333333333333p-1; 0x1.3333333333333p-2; 0x1.999999999999ap-4]%float.

Definition DEFAULT_DISTRIBUTIONS : DiscreteDistributions :=
  {| demand_values := DEMAND_VALUES;
     demand_probs := DEMAND_PROBS;
     lead_values := LEAD_VALUES;
     lead_probs := LEAD_PROBS |}.

Definition DEFAULT_COSTS : CostParameters :=
  {| holding_cost := 20;
     shortage_cost := 10;
     unit_cost := 50;
     ordering_cost := 10 |}.

Definition DEFAULT_INITIAL_STATE : InitialState :=
  {| on_hand := 3; outstanding_qty := 8; lead_remaining := 2 |}.

(** The preset policies A to D, as pairs (M, N). *)
Definition PRESET_POLICIES : list (Z * Z) :=
  [(11, 5); (11, 6); (12, 5); (12, 6)].

Definition DEFAULT_NUM_CYCLES : Z := 10.

(** A distribution that puts all its mass on one value. *)
Definition point_distributions (demand lead : Z) : DiscreteDistributions :=
  {| demand_values := [demand];
     demand_probs := [1%float];
     lead_values := [lead];
     lead_probs := [1%float] |}.

(** ** Signs of binary64 values *)

(** A value whose sign bit is clear, or NaN. *)
Definition sign_clear (x : spec_float) : bool :=
  match x with
  | S754_nan => true
  | S754_zero s | S754_infinity s | S754_finite s _ _ => negb s
  end.

Definition unsigned (x : float) : bool := sign_clear (Prim2SF x).

(** ** The reference generator as an instance of the interface *)

#[export, refine] Instance reference_numpy : NumpyRandom := {|
  Generator := Z;
  Entropy := Z;
  seeded := RefNumpy.seeded;
  unseeded := RefNumpy.unseeded;
  accepts := RefNumpy.accepts;
  draw := RefNumpy.draw;
  draw_in := _;
  accepts_size := _
|}.
Proof.
  - intros a p g H. unfold RefNumpy.accepts in H. unfold RefNumpy.draw.
    destruct (RefNumpy.random g) as [u g']. cbn [fst].
    destruct a as [|v a'].
    + cbn in H. rewrite andb_false_r in H. discriminate.
    + match goal with
      | |- In (nth ?n ?l ?d) _ =>
          destruct (nth_in_or_default n l d) as [Hin | Hd]
      end.
      * exact Hin.
      * rewrite Hd. now left.
  - intros a p H. unfold RefNumpy.accepts in H.
    repeat (apply andb_prop in H; destruct H as [H ?]).
    now apply Nat.eqb_eq.
Defined.

(** ** Runs of the reference generator *)

(** Policy A of [config.py] over the default horizon, seed 42. *)
Definition policy_A_run : result (list DayRecord * float * float) :=
  simulate_policy (NP := reference_numpy) 0 11 5 DEFAULT_NUM_CYCLES
    DEFAULT_COSTS DEFAULT_INITIAL_STATE DEFAULT_DISTRIBUTIONS (Some 42).

Definition policy_A_rows : list DayRecord :=
  Eval vm_compute in
    match policy_A_run with Ok (df, _, _) => df | Raise _ => [] end.

Definition policy_A_total : float :=
  Eval vm_compute in
    match policy_A_run with Ok (_, t, _) => t | Raise _ => 0%float end.

Definition policy_A_average : float :=
  Eval vm_compute in
    match policy_A_run with Ok (_, _, a) => a | Raise _ => 0%float end.

(** Two days of scenario B with a lead time of 0, then of 1: apart from the
    lead time recorded with the order, the rows are the same. *)
Definition lead_zero_run : result (list DayRecord * float * float) :=
  simulate_policy (NP := reference_numpy) 0 7 1 2 DEFAULT_COSTS
    {| on_hand := 5; outstanding_qty := 0; lead_remaining := 0 |}
    (point_distributions 0 0) (Some 42).

Definition lead_zero_rows : list DayRecord :=
  Eval vm_compute in
    match lead_zero_run with Ok (df, _, _) => df | Raise _ => [] end.

Definition lead_one_rows : list DayRecord :=
  Eval vm_compute in
    match simulate_policy (NP := reference_numpy) 0 7 1 2 DEFAULT_COSTS
            {| on_hand := 5; outstanding_qty := 0; lead_remaining := 0 |}
            (point_distributions 0 1) (Some 42)
    with Ok (df, _, _) => df | Raise _ => [] end.

Definition without_lead_time (r : DayRecord) : DayRecord :=
  {| Day := Day r;
     Cycle := Cycle r;
     On_hand_start := On_hand_start r;
     Incoming_today := Incoming_today r;
     Demand := Demand r;
     Sales := Sales r;
     Ending_inventory := Ending_inventory r;
     Shortage_qty := Shortage_qty r;
     Holding_cost := Holding_cost r;
     Shortage_cost := Shortage_cost r;
     Order_qty := Order_qty r;
     Lead_time_new_order := None;
     Lead_remaining_end := Lead_remaining_end r;
     Purchasing_cost := Purchasing_cost r;
     Ordering_cost := Ordering_cost r;
     Total_cost_day := Total_cost_day r |}.

(** ** Column sums and the calls of the pages *)

(** The sum of a column of integers. *)
Definition column_sum (xs : list Z) : Z := fold_right Z.add 0 xs.

(** The row on which an order placed at row [k] with the sampled lead time
    [lead] comes in: [lead] rows later, the next row when the lead is 0. *)
Definition arrival_row (k : nat) (lead : Z) : nat :=
  (k + Z.to_nat (Z.max lead 1))%nat.

Section Pages.

Context `{NP : NumpyRandom}.

(** The call of [02_custom_policy.py]: the policy and the costs come from the
    sidebar, the initial state and the distributions from [config.py]. *)
Definition custom_policy_call (os : Entropy) (custom_M custom_N num_cycles : Z)
  (cost_params : CostParameters) (seed : option Z)
  : result (list DayRecord * float * float) :=
  simulate_policy os custom_M custom_N num_cycles cost_params
    DEFAULT_INITIAL_STATE DEFAULT_DISTRIBUTIONS seed.

(** The call of [01_preset_policies.py] and [03_summary.py] for one entry
    [(M, N)] of [PRESET_POLICIES]. *)
Definition preset_policy_call (os : Entropy) (policy : Z * Z) (num_cycles : Z)
  (cost_params : CostParameters) (seed : option Z)
  : result (list DayRecord * float * float) :=
  let '(M, N) := policy in
  simulate_policy os M N num_cycles cost_params
    DEFAULT_INITIAL_STATE DEFAULT_DISTRIBUTIONS seed.

End Pages.

(** The columns of a row that count units and days, without the costs. *)
Definition quantities (r : DayRecord)
  : Z * Z * Z * Z * Z * Z * Z * Z * Z * option Z * Z :=
  (Day r, Cycle r, On_hand_start r, Incoming_today r, Demand r, Sales r,
   Ending_inventory r, Shortage_qty r, Order_qty r, Lead_time_new_order r,
   Lead_remaining_end r).

(** Three days of daily review with an order of 8 units on the way whose
    lead time left is -1. *)
Definition stuck_order_rows : list DayRecord :=
  Eval vm_compute in
    match simulate_policy (NP := reference_numpy) 0 11 1 3 DEFAULT_COSTS
            {| on_hand := 3; outstanding_qty := 8; lead_remaining := -1 |}
            DEFAULT_DISTRIBUTIONS (Some 42)
    with Ok (df, _, _) => df | Raise _ => [] end.

Section Columns.

Context `{NP : NumpyRandom}.

(** Two states of the loop that differ in the costs charged so far only. *)
Definition same_flow (st1 st2 : Locals) : Prop :=
  l_on_hand st1 = l_on_hand st2
  /\ l_outstanding_qty st1 = l_outstanding_qty st2
  /\ l_lead_remaining st1 = l_lead_remaining st2
  /\ l_rng st1 = l_rng st2
  /\ map quantities (l_records st1) = map quantities (l_records st2).

End Columns.

(** * Facts

    ** Binary64 arithmetic *)

Lemma binary_round_aux_sign_clear (mx ex : Z) (lx : location) :
  sign_clear (binary_round_aux prec emax false mx ex lx) = true.
Proof.
  unfold binary_round_aux.
  destruct (shr_fexp prec emax mx ex lx) as [mrs' e'].
  destruct (shr_fexp prec emax _ e' loc_Exact) as [mrs'' e''].
  destruct (shr_m mrs''); [reflexivity | | reflexivity].
  destruct (e'' <=? emax - prec); reflexivity.
Qed.

Lemma SFmul_sign_clear (x y : spec_float) :
  sign_clear x = true -> sign_clear y = true ->
  sign_clear (SFmul prec emax x y) = true.
Proof.
  destruct x as [[]|[]| |[] mx ex], y as [[]|[]| |[] my ey]; cbn;
    try discriminate; try reflexivity.
  intros _ _. apply binary_round_aux_sign_clear.
Qed.

Lemma SFadd_sign_clear (x y : spec_float) :
  sign_clear x = true -> sign_clear y = true ->
  sign_clear (SFadd prec emax x y) = true.
Proof.
  destruct x as [[]|[]| |[] mx ex], y as [[]|[]| |[] my ey];
    cbn -[binary_normalize shl_align]; try discriminate; try reflexivity.
  intros _ _. unfold binary_normalize. cbn [Z.add].
  unfold binary_round. destruct (shl_align _ _ _).
  apply binary_round_aux_sign_clear.
Qed.

Lemma is_cost_unsigned (x : float) : is_cost x = true -> unsigned x = true.
Proof.
  unfold is_cost, unsigned. rewrite classify_spec.
  unfold SF64classify, SFclassify.
  destruct (Prim2SF x) as [[]|[]| |[] m e]; try discriminate; try reflexivity.
  destruct (Z.pos (digits2_pos m) =? prec); discriminate.
Qed.

Lemma mul_unsigned (x y : float) :
  unsigned x = true -> unsigned y = true -> unsigned (x * y) = true.
Proof. unfold unsigned. rewrite mul_spec. apply SFmul_sign_clear. Qed.

Lemma add_unsigned (x y : float) :
  unsigned x = true -> unsigned y = true -> unsigned (x + y) = true.
Proof. unfold unsigned. rewrite add_spec. apply SFadd_sign_clear. Qed.

Lemma add_zero_r (x : float) : unsigned x = true -> (x + 0)%float = x.
Proof.
  unfold unsigned. intros H. apply Prim2SF_inj. rewrite add_spec.
  change (Prim2SF 0) with (S754_zero false).
  destruct (Prim2SF x) as [[]|[]| |[] m e]; try discriminate; reflexivity.
Qed.

Lemma add_zero_l (x : float) : unsigned x = true -> (0 + x)%float = x.
Proof.
  unfold unsigned. intros H. apply Prim2SF_inj. rewrite add_spec.
  change (Prim2SF 0) with (S754_zero false).
  destruct (Prim2SF x) as [[]|[]| |[] m e]; try discriminate; reflexivity.
Qed.

Lemma zero_mul_cost (x : float) : is_cost x = true -> (0 * x)%float = 0%float.
Proof.
  unfold is_cost. rewrite classify_spec. intros H.
  apply Prim2SF_inj. rewrite mul_spec.
  change (Prim2SF 0) with (S754_zero false).
  unfold SF64classify, SFclassify in H.
  destruct (Prim2SF x) as [[]|[]| |[] m e]; try discriminate; try reflexivity.
  destruct (Z.pos (digits2_pos m) =? prec); discriminate.
Qed.

(** ** Integers that convert to a float *)

(** Every integer up to [2^53] is far below it. *)
Lemma float_int_bound_large : 9007199254740992 <= float_int_bound.
Proof. vm_compute. discriminate. Qed.

(** [float_int_bound] is where the rounding of [float_of_int] leaves the
    floats: one below it rounds to the largest float, it rounds to
    infinity. *)
Lemma float_int_bound_rounds :
  Prim2SF (float_of_int (float_int_bound - 1))
  = S754_finite false (2 ^ 53 - 1) 971
  /\ Prim2SF (float_of_int float_int_bound) = S754_infinity false
  /\ Prim2SF (float_of_int (- float_int_bound)) = S754_infinity true.
Proof. repeat split; vm_compute; reflexivity. Qed.

Lemma fits_float_true (z : Z) :
  fits_float z = true <-> - float_int_bound < z < float_int_bound.
Proof. unfold fits_float. rewrite Z.ltb_lt. lia. Qed.

Lemma fits_float_false (z : Z) :
  fits_float z = false <-> float_int_bound <= Z.abs z.
Proof. unfold fits_float. rewrite Z.ltb_ge. lia. Qed.

Lemma py_mul_Ok (z : Z) (x : float) :
  fits_float z = true -> py_mul z x = Ok (int_mul_float z x).
Proof. unfold py_mul, py_float. now intros ->. Qed.

Lemma py_mul_Raise (z : Z) (x : float) (e : PyError) :
  py_mul z x = Raise e -> e = OverflowError /\ fits_float z = false.
Proof.
  unfold py_mul, py_float. destruct (fits_float z); cbn; [discriminate|].
  intros H. injection H as <-. now split.
Qed.

Lemma py_truediv_Ok (x : float) (n : Z) (a : float) :
  py_truediv x n = Ok a <->
  fits_float n = true /\ n <> 0 /\ a = (x / float_of_int n)%float.
Proof.
  unfold py_truediv, py_float.
  destruct (fits_float n); cbn; [|split; [discriminate | intros (H & _); discriminate]].
  destruct (n =? 0) eqn:E.
  - apply Z.eqb_eq in E. split; [discriminate | intros (_ & H & _); contradiction].
  - apply Z.eqb_neq in E. split.
    + intros H. injection H as <-. auto.
    + intros (_ & _ & ->). reflexivity.
Qed.

(** ** The loop, one day at a time *)

Lemma bind_Ok {A B : Type} (c : result A) (k : A -> result B) (b : B) :
  bind c k = Ok b -> exists a, c = Ok a /\ k a = Ok b.
Proof.
  destruct c as [a|e]; cbn; [eauto | discriminate].
Qed.

Lemma range_length (lo hi : Z) : length (range lo hi) = Z.to_nat (hi - lo).
Proof. unfold range. now rewrite length_map, length_seq. Qed.

Lemma range_nth (lo hi : Z) (k : nat) (d : Z) :
  nth_error (range lo hi) k = Some d -> d = lo + Z.of_nat k.
Proof.
  unfold range. rewrite nth_error_map, nth_error_seq.
  destruct (k <? Z.to_nat (hi - lo))%nat; cbn; [|discriminate].
  intros H. now injection H as <-.
Qed.

Section Facts.

Context `{NP : NumpyRandom}.

Variables (M N : Z) (costs : CostParameters)
  (distributions : DiscreteDistributions).

Abbreviation day_step' := (day_step M N costs distributions).
Abbreviation for_days' := (for_days M N costs distributions).
Abbreviation day_row' := (day_row M N costs distributions).
Abbreviation steps' := (steps M N costs distributions).

(** Splits a successful [day_step] into its branches: the zero tests on
    [N], the arrival, the two draws and the ordering decision. *)
Ltac step_inv H :=
  unfold day_step, py_floordiv, py_mod, py_mul, py_float,
    _sample_from_discrete, choice, bind in H;
  repeat match type of H with
    | context [if ?c then _ else _] =>
        let E := fresh "E" in destruct c eqn:E; try discriminate H
    | context [match ?p with pair _ _ => _ end] =>
        let E := fresh "E" in destruct p eqn:E
    end;
  try discriminate H; injection H as H; try subst.

(** On top of [step_inv], identifies the appended row. *)
Ltac row_inv H :=
  let Hs := fresh "Hs" in
  let Hr := fresh "Hr" in
  destruct H as [Hs Hr]; step_inv Hs; cbn [l_records] in Hr;
  apply app_inv_head in Hr; injection Hr as Hr; subst;
  cbn [Day Cycle On_hand_start Incoming_today Demand Sales Ending_inventory
       Shortage_qty Holding_cost Shortage_cost Order_qty Lead_time_new_order
       Lead_remaining_end Purchasing_cost Ordering_cost Total_cost_day
       l_on_hand l_outstanding_qty l_lead_remaining l_rng l_records
       l_total_cost] in *.

Lemma day_step_appends (day : Z) (st st' : Locals) :
  day_step' day st = Ok st' -> exists r, day_row' day st r st'.
Proof.
  intros H. unfold day_row. rewrite H. step_inv H; eexists; split; reflexivity.
Qed.

Lemma for_days_steps (days : list Z) (st st' : Locals) :
  for_days' days st = Ok st' ->
  exists rows, steps' days st rows st' /\ l_records st' = l_records st ++ rows.
Proof.
  revert st. induction days as [|day rest IH]; intros st H; cbn in H.
  - injection H as <-. exists []. split; [constructor | now rewrite app_nil_r].
  - apply bind_Ok in H. destruct H as (st1 & Hstep & Hrest).
    destruct (day_step_appends _ _ _ Hstep) as (r & Hrow).
    destruct (IH _ Hrest) as (rows & Hsteps & Hrecs).
    exists (r :: rows). split.
    + econstructor; eassumption.
    + rewrite Hrecs. destruct Hrow as [_ ->]. now rewrite <- app_assoc.
Qed.

Lemma steps_for_days (days : list Z) (st st' : Locals) (rows : list DayRecord) :
  steps' days st rows st' -> for_days' days st = Ok st'.
Proof.
  induction 1 as [|day rest st st1 st2 r rows [Hstep _] _ IH]; cbn.
  - reflexivity.
  - now rewrite Hstep.
Qed.

Lemma steps_length (days : list Z) (st st' : Locals) (rows : list DayRecord) :
  steps' days st rows st' -> length rows = length days.
Proof. induction 1; cbn; congruence. Qed.

Lemma day_row_total (day : Z) (st st' : Locals) (r : DayRecord) :
  day_row' day st r st' ->
  l_total_cost st' = (l_total_cost st + Total_cost_day r)%float.
Proof. intros H. row_inv H; reflexivity. Qed.

Lemma steps_total (days : list Z) (st st' : Locals) (rows : list DayRecord) :
  steps' days st rows st' ->
  l_total_cost st' =
  fold_left PrimFloat.add (map Total_cost_day rows) (l_total_cost st).
Proof.
  induction 1 as [|day rest st st1 st2 r rows Hrow _ IH]; cbn.
  - reflexivity.
  - now rewrite IH, (day_row_total _ _ _ _ Hrow).
Qed.

(** The row at index [k] comes from the iteration for the day at index [k];
    the rows before it lead to its locals, the rows after it start from the
    locals it leaves. *)
Lemma steps_nth (days : list Z) (st st' : Locals) (rows : list DayRecord)
  (k : nat) (r : DayRecord) :
  steps' days st rows st' ->
  nth_error rows k = Some r ->
  exists day sta stb,
    nth_error days k = Some day
    /\ steps' (firstn k days) st (firstn k rows) sta
    /\ day_row' day sta r stb
    /\ steps' (skipn (S k) days) stb (skipn (S k) rows) st'.
Proof.
  intros Hsteps. revert k.
  induction Hsteps as [|day rest st st1 st2 r0 rows Hrow Hrest IH];
    intros k Hk.
  - destruct k; discriminate.
  - destruct k as [|k]; cbn in Hk.
    + injection Hk as <-. exists day, st, st1. cbn.
      repeat split; (constructor || apply Hrow || assumption).
    + destruct (IH _ Hk) as (d & sta & stb & Hd & Hpre & Hr & Hpost).
      exists d, sta, stb. cbn [nth_error firstn].
      repeat split; try assumption; try apply Hr.
      econstructor; eassumption.
Qed.

(** An invariant of the iteration holds along the whole run, and what it
    implies for a row holds for every row. *)
Lemma steps_invariant (Inv : Locals -> Prop) (P : Z -> DayRecord -> Prop) :
  (forall day st r st', Inv st -> day_row' day st r st' -> Inv st' /\ P day r) ->
  forall days st rows st',
    steps' days st rows st' -> Inv st -> Inv st' /\ Forall2 P days rows.
Proof.
  intros Hstep. induction 1 as [|day rest st st1 st2 r rows Hrow _ IH];
    intros Hinv.
  - split; [assumption | constructor].
  - destruct (Hstep _ _ _ _ Hinv Hrow) as [Hinv1 HP].
    destruct (IH Hinv1) as [Hinv2 Hall].
    split; [assumption | now constructor].
Qed.

Lemma steps_Forall (P : DayRecord -> Prop) :
  (forall day st r st', day_row' day st r st' -> P r) ->
  forall days st rows st', steps' days st rows st' -> Forall P rows.
Proof.
  intros Hstep. induction 1 as [|day rest st st1 st2 r rows Hrow _ IH].
  - constructor.
  - constructor; [eapply Hstep; eassumption | assumption].
Qed.

(** What a call that returns went through. *)
Lemma simulate_policy_Ok (os : Entropy) (num_cycles : Z)
  (initial_state : InitialState) (seed : option Z)
  (df : list DayRecord) (total_cost avg_cost_per_cycle : float) :
  simulate_policy os M N num_cycles costs initial_state distributions seed
    = Ok (df, total_cost, avg_cost_per_cycle) ->
  exists rng st,
    default_rng os seed = Ok rng
    /\ steps' (range 1 (N * num_cycles + 1)) (initial_locals initial_state rng)
         df st
    /\ total_cost = l_total_cost st
    /\ num_cycles <> 0
    /\ avg_cost_per_cycle = (total_cost / float_of_int num_cycles)%float.
Proof.
  unfold simulate_policy. intros H.
  apply bind_Ok in H. destruct H as (rng & Hrng & H).
  apply bind_Ok in H. destruct H as (st & Hloop & H).
  apply bind_Ok in H. destruct H as (avg & Hdiv & H).
  injection H as <- <- <-.
  destruct (for_days_steps _ _ _ Hloop) as (rows & Hsteps & Hrecs).
  cbn in Hrecs. rewrite Hrecs.
  apply py_truediv_Ok in Hdiv. destruct Hdiv as (_ & Hc & ->).
  exists rng, st. repeat split; assumption.
Qed.

(** The row after the row at index [k] comes from the next iteration, entered
    with the locals the iteration for [k] left. *)
Lemma steps_adjacent (days : list Z) (st st' : Locals) (rows : list DayRecord)
  (k : nat) (r r' : DayRecord) :
  steps' days st rows st' ->
  nth_error rows k = Some r ->
  nth_error rows (S k) = Some r' ->
  exists day day' sta stb stc,
    day_row' day sta r stb /\ day_row' day' stb r' stc.
Proof.
  intros Hsteps Hk Hk'.
  destruct (steps_nth _ _ _ _ _ _ Hsteps Hk)
    as (day & sta & stb & _ & _ & Hrow & Hpost).
  rewrite <- (Nat.add_0_r (S k)), <- nth_error_skipn in Hk'.
  remember (skipn (S k) rows) as tl eqn:Etl.
  remember (skipn (S k) days) as dl eqn:Edl.
  destruct Hpost as [s|day' rest s1 stc s3 r0 rows' Hrow' Hrest].
  - discriminate.
  - cbn in Hk'. injection Hk' as <-.
    now exists day, day', sta, s1, stc.
Qed.

(** *** Step 1 and step 3 *)

Ltac recv_inv :=
  match goal with
  | E : receive_order _ _ _ = _ |- _ =>
      unfold receive_order in E;
      let C := fresh "C" in
      destruct (_ && _) eqn:C in E; injection E as; subst
  end.

Lemma day_row_on_hand (day : Z) (st st' : Locals) (r : DayRecord) :
  day_row' day st r st' ->
  On_hand_start r = l_on_hand st + Incoming_today r
  /\ 0 <= Incoming_today r
  /\ l_on_hand st' = Ending_inventory r.
Proof.
  intros H. row_inv H; recv_inv; repeat split; lia.
Qed.

Lemma day_row_sales (day : Z) (st st' : Locals) (r : DayRecord) :
  day_row' day st r st' ->
  Sales r = Z.min (On_hand_start r) (Demand r)
  /\ Shortage_qty r = Z.max (Demand r - On_hand_start r) 0
  /\ Ending_inventory r = On_hand_start r - Sales r
  /\ In (Demand r) (demand_values distributions).
Proof.
  intros H. row_inv H; repeat split; try reflexivity.
  all: match goal with
       | E : draw ?a ?p ?g = (?d, _), A : accepts ?a ?p = true |- In ?d ?a =>
           generalize (draw_in a p g A); rewrite E; exact (fun h => h)
       end.
Qed.

Lemma day_row_index (day : Z) (st st' : Locals) (r : DayRecord) :
  day_row' day st r st' ->
  N <> 0 /\ Day r = day /\ Cycle r = (day - 1) / N + 1.
Proof.
  intros H. row_inv H; repeat split; try reflexivity; now apply Z.eqb_neq.
Qed.

(** *** Steps 4 and 9 *)

Lemma day_row_cost (day : Z) (st st' : Locals) (r : DayRecord) :
  day_row' day st r st' ->
  Holding_cost r = int_mul_float (Ending_inventory r) (holding_cost costs)
  /\ Shortage_cost r = int_mul_float (Shortage_qty r) (shortage_cost costs)
  /\ Total_cost_day r =
     (Holding_cost r + Shortage_cost r + Purchasing_cost r + Ordering_cost r)%float.
Proof.
  intros H. row_inv H; repeat split; reflexivity.
Qed.

(** *** Steps 5 to 7 *)

(** The two ways a day ends: an order is placed, or none is. *)
Lemma day_row_order (day : Z) (st st' : Locals) (r : DayRecord) :
  day_row' day st r st' ->
  (order_due (day mod N =? 0) (Ending_inventory r) M
     (outstanding_at_decision st) = true
   /\ accepts (lead_values distributions) (lead_probs distributions) = true
   /\ Order_qty r = M - Ending_inventory r
   /\ (exists l, Lead_time_new_order r = Some l
                 /\ In l (lead_values distributions)
                 /\ l_lead_remaining st' = decrease_lead (Order_qty r) l)
   /\ Purchasing_cost r = int_mul_float (Order_qty r) (unit_cost costs)
   /\ Ordering_cost r = ordering_cost costs
   /\ l_outstanding_qty st' = Order_qty r
   /\ Lead_remaining_end r = l_lead_remaining st')
  \/
  (order_due (day mod N =? 0) (Ending_inventory r) M
     (outstanding_at_decision st) = false
   /\ Order_qty r = 0
   /\ Lead_time_new_order r = None
   /\ Purchasing_cost r = 0%float
   /\ Ordering_cost r = 0%float
   /\ l_outstanding_qty st' = outstanding_at_decision st
   /\ l_lead_remaining st' =
      decrease_lead (outstanding_at_decision st) (l_lead_remaining st)
   /\ Lead_remaining_end r = l_lead_remaining st').
Proof.
  intros H. unfold outstanding_at_decision.
  row_inv H; cbn [snd];
    match goal with
    | E : order_due _ _ _ _ = true |- _ => left | _ => right
    end;
    repeat split; try assumption; try reflexivity.
  eexists; repeat split.
  match goal with
  | E : draw ?a ?p ?g = (?d, _), A : accepts ?a ?p = true |- In ?d ?a =>
      generalize (draw_in a p g A); rewrite E; exact (fun h => h)
  end.
Qed.

Lemma order_due_true (b : bool) (e m q : Z) :
  order_due b e m q = true <-> b = true /\ e < m /\ q = 0.
Proof.
  unfold order_due. rewrite !andb_true_iff, Z.ltb_lt, Z.eqb_eq. tauto.
Qed.

Lemma decrease_lead_zero_one (q l : Z) :
  0 < q -> l = 0 \/ l = 1 -> decrease_lead q l = 0.
Proof.
  intros Hq [-> | ->]; unfold decrease_lead;
    destruct (q >? 0) eqn:E; cbn; try reflexivity; lia.
Qed.

(** An order placed with a sampled lead time of 0 or 1 ends its day with
    nothing left to wait. *)
Lemma day_row_lead_zero_one (day : Z) (st st' : Locals) (r : DayRecord) :
  day_row' day st r st' ->
  Lead_time_new_order r = Some 0 \/ Lead_time_new_order r = Some 1 ->
  0 < Order_qty r
  /\ Lead_remaining_end r = 0
  /\ l_lead_remaining st' = 0
  /\ l_outstanding_qty st' = Order_qty r.
Proof.
  intros Hrow Hlead.
  destruct (day_row_order _ _ _ _ Hrow)
    as [(Hdue & _ & Hq & (l & Hl & _ & Hdec) & _ & _ & Hout & Hend)
       | (_ & _ & Hnone & _)].
  2: { rewrite Hnone in Hlead. destruct Hlead; discriminate. }
  apply order_due_true in Hdue. destruct Hdue as (_ & Hlt & _).
  assert (Hpos : 0 < Order_qty r) by lia.
  assert (Hl01 : l = 0 \/ l = 1).
  { rewrite Hl in Hlead. destruct Hlead as [E | E]; injection E; auto. }
  rewrite (decrease_lead_zero_one _ _ Hpos Hl01) in Hdec.
  repeat split; congruence.
Qed.

(** The arrival of step 1: either the order in flight is due and comes in
    whole, or nothing comes in and the order, if any, stays in flight. *)
Lemma day_row_receive (day : Z) (st st' : Locals) (r : DayRecord) :
  day_row' day st r st' ->
  (l_lead_remaining st = 0 /\ 0 < l_outstanding_qty st
   /\ Incoming_today r = l_outstanding_qty st
   /\ outstanding_at_decision st = 0)
  \/
  (~ (l_lead_remaining st = 0 /\ 0 < l_outstanding_qty st)
   /\ Incoming_today r = 0
   /\ outstanding_at_decision st = l_outstanding_qty st).
Proof.
  intros H. unfold outstanding_at_decision.
  row_inv H; cbn [snd]; recv_inv;
    match goal with
    | C : _ && _ = true |- _ =>
        apply andb_true_iff in C; destruct C as [C1 C2]; left
    | C : _ && _ = false |- _ =>
        apply andb_false_iff in C; right
    end;
    repeat split; try reflexivity; lia.
Qed.

(** While an order is in flight no order is placed before it has come in. *)
Lemma steps_order_waits (days : list Z) (st st' : Locals)
  (rows : list DayRecord) :
  steps' days st rows st' ->
  0 < l_outstanding_qty st ->
  forall k rk,
    nth_error rows k = Some rk -> 0 < Order_qty rk ->
    exists i ri, (i <= k)%nat /\ nth_error rows i = Some ri
                 /\ Incoming_today ri = l_outstanding_qty st.
Proof.
  induction 1 as [|day rest st st1 st2 r rows Hrow _ IH]; intros Hout k rk Hk Hq.
  - destruct k; discriminate.
  - destruct (day_row_receive _ _ _ _ Hrow)
      as [(_ & _ & Hin & _) | (_ & _ & Hdec)].
    + exists O, r. repeat split; [lia | assumption].
    + destruct (day_row_order _ _ _ _ Hrow)
        as [(Hdue & _) | (_ & Hzero & _ & _ & _ & Hkeep & _)].
      * apply order_due_true in Hdue. lia.
      * destruct k as [|k]; cbn in Hk.
        -- injection Hk as <-. lia.
        -- rewrite Hdec in Hkeep.
           destruct (IH ltac:(lia) _ _ Hk Hq) as (i & ri & Hi & Hri & Hinc).
           exists (S i), ri. repeat split; [lia | assumption | congruence].
Qed.

(** *** What stops an iteration, and what lets it return *)

(** A ZeroDivisionError of an iteration comes from [N = 0], a ValueError from
    a distribution the sampler rejects. *)
Lemma day_step_Raise (day : Z) (st : Locals) (e : PyError) :
  day_step' day st = Raise e ->
  (e = ZeroDivisionError /\ N = 0)
  \/ (e = ValueError
      /\ (accepts (demand_values distributions) (demand_probs distributions)
            = false
          \/ accepts (lead_values distributions) (lead_probs distributions)
               = false))
  \/ (e = OverflowError /\ N <> 0).
Proof.
  unfold day_step, py_floordiv, py_mod, _sample_from_discrete, choice.
  destruct (N =? 0) eqn:HN; cbn [bind].
  - intros H. injection H as <-. left. split; [reflexivity | now apply Z.eqb_eq].
  - apply Z.eqb_neq in HN.
    destruct (receive_order _ _ _) as [[incoming on_hand'] outstanding'].
    destruct (accepts (demand_values distributions) _) eqn:Hd; cbn [bind].
    + destruct (draw _ _ (l_rng st)) as [demand g].
      destruct (py_mul _ (holding_cost costs)) as [holding|e1] eqn:Hh;
        cbn [bind].
      2: { apply py_mul_Raise in Hh. destruct Hh as (-> & _).
           intros H. injection H as <-. auto. }
      destruct (py_mul _ (shortage_cost costs)) as [shortage|e1] eqn:Hs;
        cbn [bind].
      2: { apply py_mul_Raise in Hs. destruct Hs as (-> & _).
           intros H. injection H as <-. auto. }
      destruct (order_due _ _ _ _); cbn [bind].
      * destruct (accepts (lead_values distributions) _) eqn:Hl; cbn [bind].
        -- destruct (draw _ _ g) as [lead g'].
           destruct (py_mul _ (unit_cost costs)) as [purchasing|e1] eqn:Hp;
             cbn [bind]; [discriminate|].
           apply py_mul_Raise in Hp. destruct Hp as (-> & _).
           intros H. injection H as <-. auto.
        -- intros H. injection H as <-. right. left.
           split; [reflexivity | now right].
      * discriminate.
    + intros H. injection H as <-. right. left.
      split; [reflexivity | now left].
Qed.

Lemma for_days_Raise (days : list Z) (st : Locals) (e : PyError) :
  for_days' days st = Raise e ->
  days <> []
  /\ ((e = ZeroDivisionError /\ N = 0)
      \/ (e = ValueError
          /\ (accepts (demand_values distributions)
                (demand_probs distributions) = false
              \/ accepts (lead_values distributions)
                   (lead_probs distributions) = false))
      \/ (e = OverflowError /\ N <> 0)).
Proof.
  revert st. induction days as [|day rest IH]; intros st; cbn.
  - discriminate.
  - intros H. split; [discriminate|].
    destruct (day_step' day st) as [st1|e1] eqn:Hstep; cbn in H.
    + now apply IH in H.
    + injection H as <-. now apply day_step_Raise in Hstep.
Qed.

(** With an inventory position that starts between 0 and [B], [M <= B], [B]
    and the demand values in the range of the floats and no demand value
    negative, an iteration keeps the position between 0 and [B] and never
    raises OverflowError. *)
Lemma day_step_sized (B day : Z) (st : Locals) :
  M <= B -> B < float_int_bound ->
  Forall (fun v => 0 <= v < float_int_bound) (demand_values distributions) ->
  0 <= l_on_hand st /\ 0 <= l_outstanding_qty st
  /\ l_on_hand st + l_outstanding_qty st <= B ->
  match day_step' day st with
  | Ok st' =>
      0 <= l_on_hand st' /\ 0 <= l_outstanding_qty st'
      /\ l_on_hand st' + l_outstanding_qty st' <= B
  | Raise e => e <> OverflowError
  end.
Proof.
  intros HM HB Hdem (Hoh & Hout & Hsum).
  unfold day_step, py_floordiv, py_mod, _sample_from_discrete, choice.
  destruct (N =? 0); cbn [bind]; [discriminate|].
  destruct (receive_order _ _ _) as [[incoming on_hand'] outstanding'] eqn:E.
  assert (Hrecv : 0 <= on_hand' /\ 0 <= outstanding'
                  /\ on_hand' + outstanding' <= B).
  { unfold receive_order in E.
    destruct (_ && _) in E; injection E as <- <- <-; lia. }
  destruct (accepts (demand_values distributions) _) eqn:Hd; cbn [bind];
    [|discriminate].
  pose proof (draw_in _ _ (l_rng st) Hd) as Hin.
  destruct (draw _ _ (l_rng st)) as [demand g]. cbn [fst] in Hin.
  rewrite Forall_forall in Hdem. apply Hdem in Hin.
  rewrite !py_mul_Ok by (apply fits_float_true; lia). cbn [bind].
  destruct (order_due _ _ _ _) eqn:Hdue; cbn [bind].
  - apply order_due_true in Hdue. destruct Hdue as (_ & Hlt & ->).
    destruct (accepts (lead_values distributions) _); cbn [bind];
      [|discriminate].
    destruct (draw _ _ g) as [lead g']. cbn [bind].
    rewrite py_mul_Ok by (apply fits_float_true; lia).
    cbn [bind l_on_hand l_outstanding_qty]. lia.
  - cbn [l_on_hand l_outstanding_qty]. lia.
Qed.

Lemma for_days_sized (B : Z) (days : list Z) (st : Locals) :
  M <= B -> B < float_int_bound ->
  Forall (fun v => 0 <= v < float_int_bound) (demand_values distributions) ->
  0 <= l_on_hand st /\ 0 <= l_outstanding_qty st
  /\ l_on_hand st + l_outstanding_qty st <= B ->
  forall e, for_days' days st = Raise e -> e <> OverflowError.
Proof.
  intros HM HB Hdem. revert st.
  induction days as [|day rest IH]; intros st Hinv e; cbn.
  - discriminate.
  - pose proof (day_step_sized B day st HM HB Hdem Hinv) as Hstep.
    destruct (day_step' day st) as [st1|e1]; cbn [bind].
    + now apply IH.
    + intros H. injection H as <-. exact Hstep.
Qed.

(** What a call that raises went through, once its generator is created. *)
Lemma simulate_policy_Raise (os : Entropy) (num_cycles : Z)
  (initial_state : InitialState) (seed : option Z) (rng : Generator)
  (e : PyError) :
  default_rng os seed = Ok rng ->
  simulate_policy os M N num_cycles costs initial_state distributions seed
    = Raise e ->
  (e = ZeroDivisionError /\ num_cycles = 0)
  \/ (e = ValueError /\ 1 <= N * num_cycles
      /\ (accepts (demand_values distributions)
            (demand_probs distributions) = false
          \/ accepts (lead_values distributions)
               (lead_probs distributions) = false))
  \/ (e = OverflowError /\ num_cycles <> 0
      /\ ((fits_float num_cycles = false
           /\ exists st,
                for_days' (range 1 (N * num_cycles + 1))
                  (initial_locals initial_state rng) = Ok st)
          \/ (1 <= N * num_cycles
              /\ for_days' (range 1 (N * num_cycles + 1))
                   (initial_locals initial_state rng) = Raise OverflowError))).
Proof.
  intros Hrng. unfold simulate_policy. rewrite Hrng. cbn [bind].
  destruct (for_days' _ _) as [st|e1] eqn:Hloop; cbn [bind].
  - unfold py_truediv, py_float.
    destruct (fits_float num_cycles) eqn:Hfit; cbn [bind].
    + destruct (num_cycles =? 0) eqn:E; [|discriminate].
      intros H. injection H as <-. left.
      split; [reflexivity | now apply Z.eqb_eq].
    + intros H. injection H as <-. right. right.
      split; [reflexivity|]. split.
      * intros ->. discriminate Hfit.
      * left. split; [reflexivity | now exists st].
  - intros H. injection H as <-.
    pose proof Hloop as Hwhy.
    apply for_days_Raise in Hwhy. destruct Hwhy as (Hdays & Hwhy).
    assert (Hlen : 1 <= N * num_cycles).
    { destruct (Z_lt_le_dec (N * num_cycles) 1) as [Hlt|]; [|assumption].
      exfalso. apply Hdays. apply length_zero_iff_nil.
      rewrite range_length. lia. }
    destruct Hwhy as [(_ & HN) | [(-> & Hrej) | (-> & _)]]; [nia | |].
    + right. left. repeat split; assumption.
    + right. right. split; [reflexivity|]. split; [nia|]. right. now split.
Qed.


(** A call returns when its generator is created, [num_cycles] is not 0, the
    sampler accepts both distributions, nothing is negative in the initial
    state and the integers are in the range of the floats. *)
Lemma run_returns (os : Entropy) (num_cycles : Z)
  (initial_state : InitialState) (seed : option Z) (rng : Generator) :
  default_rng os seed = Ok rng ->
  num_cycles <> 0 ->
  accepts (demand_values distributions) (demand_probs distributions) = true ->
  accepts (lead_values distributions) (lead_probs distributions) = true ->
  0 <= on_hand initial_state ->
  0 <= outstanding_qty initial_state ->
  float_sized M num_cycles initial_state distributions ->
  exists df total_cost avg_cost_per_cycle,
    simulate_policy os M N num_cycles costs initial_state distributions seed
      = Ok (df, total_cost, avg_cost_per_cycle).
Proof.
  intros Hrng Hc Hd Hl Hoh Hout [HM Hnc Hpos Hdem].
  destruct (simulate_policy os M N num_cycles costs initial_state
              distributions seed) as [[[df t] a]|e] eqn:H.
  - now exists df, t, a.
  - exfalso.
    destruct (simulate_policy_Raise _ _ _ _ _ _ Hrng H)
      as [(_ & H0) | [(_ & _ & [Hrej | Hrej]) | (-> & _ & Hwhy)]];
      try congruence.
    destruct Hwhy as [(Hfit & _) | (_ & Hloop)].
    + apply fits_float_false in Hfit. lia.
    + apply (for_days_sized
               (Z.max M (on_hand initial_state + outstanding_qty initial_state)))
        in Hloop; [congruence | lia | lia | exact Hdem | cbn; lia].
Qed.

End Facts.

(** ** Properties of the per-day ledger *)

Section Ledger.

Context `{NP : NumpyRandom}.

(** C1, as the code has it.  The recorded on-hand at the start of the day is
    taken after the arrival, so it already contains the units received that
    day: the recorded shortage is [max(Demand - OnHandStart, 0)], and
    [OnHandStart] is the inventory carried over from the day before (the
    initial on-hand on day 1) plus [IncomingToday]. *)
Theorem shortage_from_on_hand_start (os : Entropy) (M N num_cycles : Z)
  (costs : CostParameters) (initial_state : InitialState)
  (distributions : DiscreteDistributions) (seed : option Z)
  (df : list DayRecord) (total_cost avg_cost_per_cycle : float) :
  simulate_policy os M N num_cycles costs initial_state distributions seed
    = Ok (df, total_cost, avg_cost_per_cycle) ->
  (forall r, In r df ->
     Shortage_qty r = Z.max (Demand r - On_hand_start r) 0)
  /\ (forall r, nth_error df 0 = Some r ->
        On_hand_start r = on_hand initial_state + Incoming_today r)
  /\ (forall k r r',
        nth_error df k = Some r -> nth_error df (S k) = Some r' ->
        On_hand_start r' = Ending_inventory r + Incoming_today r').
Proof.
  intros H.
  destruct (simulate_policy_Ok _ _ _ _ _ _ _ _ _ _ _ H)
    as (rng & st & _ & Hsteps & _).
  repeat split.
  - apply Forall_forall.
    eapply steps_Forall; [|exact Hsteps].
    intros day sta r stb Hrow. now apply day_row_sales in Hrow.
  - intros r Hr.
    inversion Hsteps as [|day rest s0 st1 s2 r0 rows Hrow Hrest]; subst.
    + discriminate.
    + cbn in Hr. injection Hr as <-.
      now apply day_row_on_hand in Hrow.
  - intros k r r' Hk Hk'.
    destruct (steps_adjacent _ _ _ _ _ _ _ _ _ _ _ Hsteps Hk Hk')
      as (day & day' & sta & stb & stc & Hrow & Hrow').
    apply day_row_on_hand in Hrow, Hrow'.
    destruct Hrow as (_ & _ & <-). now destruct Hrow' as (-> & _).
Qed.

(** C4.  Each row's total is the sum of its four cost columns, the returned
    total is the running sum of the rows' totals from [0.0] in day order, and
    the average divides that total by [num_cycles]. *)
Theorem cost_additivity (os : Entropy) (M N num_cycles : Z)
  (costs : CostParameters) (initial_state : InitialState)
  (distributions : DiscreteDistributions) (seed : option Z)
  (df : list DayRecord) (total_cost avg_cost_per_cycle : float) :
  simulate_policy os M N num_cycles costs initial_state distributions seed
    = Ok (df, total_cost, avg_cost_per_cycle) ->
  (forall r, In r df ->
     Total_cost_day r =
     (Holding_cost r + Shortage_cost r + Purchasing_cost r + Ordering_cost r)%float)
  /\ total_cost = float_sum (map Total_cost_day df)
  /\ avg_cost_per_cycle = (total_cost / float_of_int num_cycles)%float.
Proof.
  intros H.
  destruct (simulate_policy_Ok _ _ _ _ _ _ _ _ _ _ _ H)
    as (rng & st & _ & Hsteps & Htotal & _ & Havg).
  repeat split.
  - apply Forall_forall.
    eapply steps_Forall; [|exact Hsteps].
    intros day sta r stb Hrow. now apply day_row_cost in Hrow.
  - rewrite Htotal. apply (steps_total _ _ _ _ _ _ _ _ Hsteps).
  - exact Havg.
Qed.

(** C6.  An order quantity is recorded only on a review day; on any other
    day the order quantity is 0, no lead time is assigned, and the purchasing
    and ordering costs are [0.0]. *)
Theorem review_gating (os : Entropy) (M N num_cycles : Z)
  (costs : CostParameters) (initial_state : InitialState)
  (distributions : DiscreteDistributions) (seed : option Z)
  (df : list DayRecord) (total_cost avg_cost_per_cycle : float) :
  simulate_policy os M N num_cycles costs initial_state distributions seed
    = Ok (df, total_cost, avg_cost_per_cycle) ->
  forall r, In r df ->
    (0 < Order_qty r -> Day r mod N = 0)
    /\ (Day r mod N <> 0 ->
        Order_qty r = 0 /\ Lead_time_new_order r = None
        /\ Purchasing_cost r = 0%float /\ Ordering_cost r = 0%float).
Proof.
  intros H.
  destruct (simulate_policy_Ok _ _ _ _ _ _ _ _ _ _ _ H)
    as (rng & st & _ & Hsteps & _).
  apply Forall_forall.
  eapply steps_Forall; [|exact Hsteps].
  intros day sta r stb Hrow.
  destruct (day_row_index _ _ _ _ _ _ _ _ Hrow) as (_ & Hday & _).
  rewrite Hday.
  destruct (day_row_order _ _ _ _ _ _ _ _ Hrow)
    as [(Hdue & _) | (Hdue & Hq & Hl & Hp & Ho & _)].
  - apply order_due_true in Hdue. destruct Hdue as (Hrev & _).
    apply Z.eqb_eq in Hrev. split; [intros _; exact Hrev | contradiction].
  - split; [lia | now intros _].
Qed.

(** C8.  A run of a valid configuration returns [N * num_cycles] rows; the
    k-th of them, counting from 1, is the row of day [k] and belongs to
    cycle [(k - 1) div N + 1]. *)
Theorem day_and_cycle_index (os : Entropy) (M N num_cycles : Z)
  (costs : CostParameters) (initial_state : InitialState)
  (distributions : DiscreteDistributions) (seed : option Z)
  (df : list DayRecord) (total_cost avg_cost_per_cycle : float) :
  valid_config M N num_cycles costs initial_state distributions ->
  simulate_policy os M N num_cycles costs initial_state distributions seed
    = Ok (df, total_cost, avg_cost_per_cycle) ->
  Z.of_nat (length df) = N * num_cycles
  /\ forall k, 1 <= k <= N * num_cycles ->
       exists r, nth_error df (Z.to_nat (k - 1)) = Some r
                 /\ Day r = k /\ Cycle r = (k - 1) / N + 1.
Proof.
  intros Hvalid H.
  destruct (simulate_policy_Ok _ _ _ _ _ _ _ _ _ _ _ H)
    as (rng & st & _ & Hsteps & _).
  assert (Hlen : length df = Z.to_nat (N * num_cycles)).
  { rewrite (steps_length _ _ _ _ _ _ _ _ Hsteps), range_length. f_equal. lia. }
  destruct Hvalid as [HN _ Hc _ _ _ _ _ _].
  split; [rewrite Hlen; nia|].
  intros k Hk.
  destruct (nth_error df (Z.to_nat (k - 1))) as [r|] eqn:Hr.
  - exists r. split; [reflexivity|].
    destruct (steps_nth _ _ _ _ _ _ _ _ _ _ Hsteps Hr)
      as (day & sta & stb & Hday & _ & Hrow & _).
    apply range_nth in Hday.
    destruct (day_row_index _ _ _ _ _ _ _ _ Hrow) as (_ & -> & ->).
    subst day. split; [lia | f_equal; f_equal; lia].
  - apply nth_error_None in Hr. lia.
Qed.

(** C9, as the code has it.  For a valid configuration the ending inventory
    and the shortage are never negative and the sales exceed neither the
    demand nor the stock available; the sales themselves are non-negative as
    soon as no value of the demand distribution is negative. *)
Theorem non_negativity (os : Entropy) (M N num_cycles : Z)
  (costs : CostParameters) (initial_state : InitialState)
  (distributions : DiscreteDistributions) (seed : option Z)
  (df : list DayRecord) (total_cost avg_cost_per_cycle : float) :
  valid_config M N num_cycles costs initial_state distributions ->
  simulate_policy os M N num_cycles costs initial_state distributions seed
    = Ok (df, total_cost, avg_cost_per_cycle) ->
  forall r, In r df ->
    0 <= Ending_inventory r
    /\ 0 <= Shortage_qty r
    /\ Sales r <= Demand r
    /\ Sales r <= On_hand_start r + Incoming_today r
    /\ (Forall (fun v => 0 <= v) (demand_values distributions) ->
        0 <= Sales r).
Proof.
  intros Hvalid H.
  destruct (simulate_policy_Ok _ _ _ _ _ _ _ _ _ _ _ H)
    as (rng & st & _ & Hsteps & _).
  assert (Hall : Forall2 (fun (_ : Z) r =>
            0 <= Ending_inventory r
            /\ 0 <= Shortage_qty r
            /\ Sales r <= Demand r
            /\ Sales r <= On_hand_start r + Incoming_today r
            /\ (Forall (fun v => 0 <= v) (demand_values distributions) ->
                0 <= Sales r))
          (range 1 (N * num_cycles + 1)) df).
  { eapply (steps_invariant M N costs distributions
              (fun s => 0 <= l_on_hand s)); [|exact Hsteps|].
    - intros day sta r stb Hinv Hrow.
      destruct (day_row_on_hand _ _ _ _ _ _ _ _ Hrow) as (Hstart & Hinc & Hnext).
      destruct (day_row_sales _ _ _ _ _ _ _ _ Hrow) as (Hs & Hq & He & Hd).
      repeat split; try lia.
      intros Hdem. rewrite Forall_forall in Hdem. apply Hdem in Hd. lia.
    - cbn. now destruct Hvalid. }
  intros r Hr. apply In_nth_error in Hr. destruct Hr as (k & Hk).
  clear - Hall Hk. revert k Hk.
  induction Hall as [|d r0 ds rs Hhd _ IH]; intros k Hk.
  - destruct k; discriminate.
  - destruct k as [|k]; cbn in Hk.
    + now injection Hk as <-.
    + eapply IH; eassumption.
Qed.

(** C10.  A sampled lead time of 0 has the effect of a sampled lead time of
    1: step 7 leaves a lead of 0 alone and takes a lead of 1 down to 0, so in
    both cases the row records [LeadRemainingEnd = 0] and the next day, if
    there is one, receives the whole order as its [IncomingToday]. *)
Theorem lead_time_zero_as_one (os : Entropy) (M N num_cycles : Z)
  (costs : CostParameters) (initial_state : InitialState)
  (distributions : DiscreteDistributions) (seed : option Z)
  (df : list DayRecord) (total_cost avg_cost_per_cycle : float) :
  simulate_policy os M N num_cycles costs initial_state distributions seed
    = Ok (df, total_cost, avg_cost_per_cycle) ->
  forall k r,
    nth_error df k = Some r ->
    Lead_time_new_order r = Some 0 \/ Lead_time_new_order r = Some 1 ->
    0 < Order_qty r
    /\ decrease_lead (Order_qty r) 0 = 0
    /\ decrease_lead (Order_qty r) 1 = 0
    /\ Lead_remaining_end r = 0
    /\ (forall r', nth_error df (S k) = Some r' ->
          Incoming_today r' = Order_qty r).
Proof.
  intros H k r Hk Hlead.
  destruct (simulate_policy_Ok _ _ _ _ _ _ _ _ _ _ _ H)
    as (rng & st & _ & Hsteps & _).
  destruct (steps_nth _ _ _ _ _ _ _ _ _ _ Hsteps Hk)
    as (day & sta & stb & _ & _ & Hrow & _).
  destruct (day_row_lead_zero_one _ _ _ _ _ _ _ _ Hrow Hlead)
    as (Hpos & Hend & _).
  repeat split; try assumption.
  - apply decrease_lead_zero_one; auto.
  - apply decrease_lead_zero_one; auto.
  - intros r' Hk'.
    destruct (steps_adjacent _ _ _ _ _ _ _ _ _ _ _ Hsteps Hk Hk')
      as (d & d' & s1 & s2 & s3 & Hrow1 & Hrow2).
    destruct (day_row_lead_zero_one _ _ _ _ _ _ _ _ Hrow1 Hlead)
      as (_ & _ & Hrem & Hout).
    destruct (day_row_receive _ _ _ _ _ _ _ _ Hrow2)
      as [(_ & _ & Hin & _) | (Hno & _)].
    + congruence.
    + exfalso. apply Hno. split; [assumption | lia].
Qed.

(** C5.  Whenever a row records an order, the ordering decision of that day
    found [outstanding_qty = 0], in the locals this very run had reached; and
    every earlier order of the run has come in, whole, on some day after it
    was placed and no later than the day of the new order. *)
Theorem single_order_invariant (os : Entropy) (M N num_cycles : Z)
  (costs : CostParameters) (initial_state : InitialState)
  (distributions : DiscreteDistributions) (seed : option Z)
  (df : list DayRecord) (total_cost avg_cost_per_cycle : float) :
  simulate_policy os M N num_cycles costs initial_state distributions seed
    = Ok (df, total_cost, avg_cost_per_cycle) ->
  forall k rk,
    nth_error df k = Some rk ->
    0 < Order_qty rk ->
    (exists rng sta stb,
       default_rng os seed = Ok rng
       /\ steps M N costs distributions
            (firstn k (range 1 (N * num_cycles + 1)))
            (initial_locals initial_state rng) (firstn k df) sta
       /\ day_row M N costs distributions (Z.of_nat k + 1) sta rk stb
       /\ outstanding_at_decision sta = 0
       /\ l_outstanding_qty stb = Order_qty rk)
    /\ (forall j rj,
          (j < k)%nat -> nth_error df j = Some rj -> 0 < Order_qty rj ->
          exists i ri, (j < i <= k)%nat /\ nth_error df i = Some ri
                       /\ Incoming_today ri = Order_qty rj).
Proof.
  intros H k rk Hk Hq.
  destruct (simulate_policy_Ok _ _ _ _ _ _ _ _ _ _ _ H)
    as (rng & st & Hrng & Hsteps & _).
  split.
  - destruct (steps_nth _ _ _ _ _ _ _ _ _ _ Hsteps Hk)
      as (day & sta & stb & Hday & Hpre & Hrow & _).
    apply range_nth in Hday. subst day.
    exists rng, sta, stb.
    destruct (day_row_order _ _ _ _ _ _ _ _ Hrow)
      as [(Hdue & _ & _ & _ & _ & _ & Hout & _) | (_ & Hzero & _)]; [|lia].
    apply order_due_true in Hdue. destruct Hdue as (_ & _ & Hnone).
    rewrite (Z.add_comm 1 (Z.of_nat k)) in Hrow.
    split; [exact Hrng|]. split; [exact Hpre|]. split; [exact Hrow|].
    split; assumption.
  - intros j rj Hjk Hj Hqj.
    destruct (steps_nth _ _ _ _ _ _ _ _ _ _ Hsteps Hj)
      as (day & sta & stb & _ & _ & Hrow & Hpost).
    destruct (day_row_order _ _ _ _ _ _ _ _ Hrow)
      as [(_ & _ & _ & _ & _ & _ & Hout & _) | (_ & Hzero & _)]; [|lia].
    assert (Hk' : nth_error (skipn (S j) df) (k - S j) = Some rk).
    { rewrite nth_error_skipn. rewrite <- Hk. f_equal. lia. }
    destruct (steps_order_waits _ _ _ _ _ _ _ _ Hpost ltac:(lia) _ _ Hk' Hq)
      as (i & ri & Hi & Hri & Hinc).
    exists (S j + i)%nat, ri. rewrite nth_error_skipn in Hri.
    repeat split; try assumption; lia.
Qed.



(** C7.  Scenario B: [M = 7], [N = 1], one cycle, demand always 0, lead time
    always 1, five units on hand and nothing on order.  The single day
    orders 2 units at [2 * unit_cost] plus the flat fee, assigns the lead
    time 1 and counts it down to 0 the same day; the total is
    [5 * holding_cost + 2 * unit_cost + ordering_cost]. *)
Theorem scenario_B (os : Entropy) (costs : CostParameters) (seed : option Z)
  (rng : Generator) :
  let initial_state :=
    {| on_hand := 5; outstanding_qty := 0; lead_remaining := 0 |} in
  valid_config 7 1 1 costs initial_state (point_distributions 0 1) ->
  default_rng os seed = Ok rng ->
  exists r avg_cost_per_cycle,
    simulate_policy os 7 1 1 costs initial_state (point_distributions 0 1) seed
      = Ok ([r],
            (5 * holding_cost costs + 2 * unit_cost costs
             + ordering_cost costs)%float,
            avg_cost_per_cycle)
    /\ Day r = 1
    /\ Order_qty r = 2
    /\ Purchasing_cost r = (2 * unit_cost costs)%float
    /\ Ordering_cost r = ordering_cost costs
    /\ Lead_time_new_order r = Some 1
    /\ Lead_remaining_end r = 0.
Proof.
  intros initial_state [_ _ _ Hcosts _ _ _ Hd Hl] Hrng.
  subst initial_state.
  cbn [point_distributions demand_values demand_probs lead_values lead_probs]
    in Hd, Hl.
  unfold valid_costs in Hcosts.
  apply andb_prop in Hcosts. destruct Hcosts as [Hcosts Ho].
  apply andb_prop in Hcosts. destruct Hcosts as [Hcosts Hu].
  apply andb_prop in Hcosts. destruct Hcosts as [Hh Hs].
  unfold simulate_policy. rewrite Hrng. cbn [bind].
  change (range 1 (1 * 1 + 1)) with [1]. cbn [for_days].
  unfold day_step, py_floordiv, py_mod, _sample_from_discrete, choice.
  cbn [point_distributions demand_values demand_probs lead_values lead_probs
       initial_locals l_on_hand l_outstanding_qty l_lead_remaining l_rng
       l_records l_total_cost on_hand outstanding_qty lead_remaining].
  rewrite Hd, Hl.
  pose proof (draw_in [0] [1%float] rng Hd) as Hdem.
  destruct (draw [0] [1%float] rng) as [demand g].
  cbn [fst In] in Hdem. destruct Hdem as [<-|[]].
  cbn -[int_mul_float PrimFloat.add PrimFloat.mul PrimFloat.div].
  pose proof (draw_in [1] [1%float] g Hl) as Hlead.
  destruct (draw [1] [1%float] g) as [lead g'].
  cbn [fst In] in Hlead. destruct Hlead as [<-|[]].
  cbn -[int_mul_float PrimFloat.add PrimFloat.mul PrimFloat.div].
  rewrite !py_mul_Ok by (vm_compute; reflexivity).
  unfold py_truediv, py_float.
  replace (fits_float 1) with true by (vm_compute; reflexivity).
  cbn -[int_mul_float PrimFloat.add PrimFloat.mul PrimFloat.div].
  unfold int_mul_float.
  change (float_of_int 5) with 5%float.
  change (float_of_int 2) with 2%float.
  change (float_of_int 0) with 0%float.
  assert (U5 : unsigned (5 * holding_cost costs) = true).
  { apply mul_unsigned; [reflexivity | now apply is_cost_unsigned]. }
  assert (U2 : unsigned (2 * unit_cost costs) = true).
  { apply mul_unsigned; [reflexivity | now apply is_cost_unsigned]. }
  rewrite (zero_mul_cost _ Hs), (add_zero_r _ U5).
  rewrite add_zero_l
    by (repeat apply add_unsigned; auto using is_cost_unsigned).
  eexists. eexists. split; [reflexivity|].
  cbn. repeat split; reflexivity.
Qed.

End Ledger.

(** ** The properties on runs of the reference generator *)

Lemma policy_A_run_Ok :
  simulate_policy (NP := reference_numpy) 0 11 5 DEFAULT_NUM_CYCLES
    DEFAULT_COSTS DEFAULT_INITIAL_STATE DEFAULT_DISTRIBUTIONS (Some 42)
  = Ok (policy_A_rows, policy_A_total, policy_A_average).
Proof. vm_compute. reflexivity. Qed.

Lemma policy_A_valid :
  valid_config (NP := reference_numpy) 11 5 DEFAULT_NUM_CYCLES DEFAULT_COSTS
    DEFAULT_INITIAL_STATE DEFAULT_DISTRIBUTIONS.
Proof.
  constructor; try (vm_compute; congruence); vm_compute; reflexivity.
Qed.

Lemma policy_A_sized :
  float_sized 11 DEFAULT_NUM_CYCLES DEFAULT_INITIAL_STATE
    DEFAULT_DISTRIBUTIONS.
Proof.
  pose proof float_int_bound_large as Hb.
  constructor; [lia | vm_compute; reflexivity | cbn; lia
               | repeat constructor; lia].
Qed.

Lemma shortage_from_on_hand_start_witness :
  simulate_policy (NP := reference_numpy) 0 11 5 DEFAULT_NUM_CYCLES
    DEFAULT_COSTS DEFAULT_INITIAL_STATE DEFAULT_DISTRIBUTIONS (Some 42)
  = Ok (policy_A_rows, policy_A_total, policy_A_average)
  /\ Forall (fun r => Shortage_qty r = Z.max (Demand r - On_hand_start r) 0)
       policy_A_rows.
Proof.
  split; [exact policy_A_run_Ok|].
  apply Forall_forall.
  exact (proj1 (shortage_from_on_hand_start (NP := reference_numpy) 0 11 5 DEFAULT_NUM_CYCLES
                  DEFAULT_COSTS DEFAULT_INITIAL_STATE DEFAULT_DISTRIBUTIONS
                  (Some 42) policy_A_rows policy_A_total policy_A_average
                  policy_A_run_Ok)).
Defined.

(** One day on which an order of 1 unit arrives and the demand is 2: the
    row records 1 unit coming in, 1 unit on hand at the start, and a shortage
    of 1, where [max(Demand - (OnHandStart + IncomingToday), 0)] is 0. *)
Lemma shortage_formula_counterexample :
  exists r total_cost avg_cost_per_cycle,
    valid_config (NP := reference_numpy) 5 1 1 DEFAULT_COSTS
      {| on_hand := 0; outstanding_qty := 1; lead_remaining := 0 |}
      (point_distributions 2 1)
    /\ simulate_policy (NP := reference_numpy) 0 5 1 1 DEFAULT_COSTS
         {| on_hand := 0; outstanding_qty := 1; lead_remaining := 0 |}
         (point_distributions 2 1) (Some 42)
       = Ok ([r], total_cost, avg_cost_per_cycle)
    /\ Incoming_today r = 1
    /\ On_hand_start r = 1
    /\ Demand r = 2
    /\ Shortage_qty r = 1
    /\ Shortage_qty r
       <> Z.max (Demand r - (On_hand_start r + Incoming_today r)) 0.
Proof.
  eexists. eexists. eexists.
  split; [constructor; try (vm_compute; congruence); vm_compute; reflexivity|].
  split; [vm_compute; reflexivity|].
  cbn. repeat split; lia.
Qed.


Lemma cost_additivity_witness :
  simulate_policy (NP := reference_numpy) 0 11 5 DEFAULT_NUM_CYCLES
    DEFAULT_COSTS DEFAULT_INITIAL_STATE DEFAULT_DISTRIBUTIONS (Some 42)
  = Ok (policy_A_rows, policy_A_total, policy_A_average)
  /\ policy_A_total = float_sum (map Total_cost_day policy_A_rows)
  /\ policy_A_average = (policy_A_total / float_of_int DEFAULT_NUM_CYCLES)%float.
Proof.
  split; [exact policy_A_run_Ok|].
  exact (proj2 (cost_additivity (NP := reference_numpy) 0 11 5 DEFAULT_NUM_CYCLES
                  DEFAULT_COSTS DEFAULT_INITIAL_STATE DEFAULT_DISTRIBUTIONS
                  (Some 42) policy_A_rows policy_A_total policy_A_average
                  policy_A_run_Ok)).
Defined.

(** The order of day 10 follows the order of 9 units of day 5, which came in
    on day 6. *)
Lemma single_order_invariant_witness :
  simulate_policy (NP := reference_numpy) 0 11 5 DEFAULT_NUM_CYCLES
    DEFAULT_COSTS DEFAULT_INITIAL_STATE DEFAULT_DISTRIBUTIONS (Some 42)
  = Ok (policy_A_rows, policy_A_total, policy_A_average)
  /\ exists i ri, (4 < i <= 9)%nat /\ nth_error policy_A_rows i = Some ri
                  /\ Incoming_today ri = 9.
Proof.
  split; [exact policy_A_run_Ok|].
  refine (proj2 (single_order_invariant (NP := reference_numpy) 0 11 5 DEFAULT_NUM_CYCLES
                   DEFAULT_COSTS DEFAULT_INITIAL_STATE DEFAULT_DISTRIBUTIONS
                   (Some 42) policy_A_rows policy_A_total policy_A_average
                  policy_A_run_Ok 9%nat _ eq_refl _)
                4%nat _ _ eq_refl _).
  - reflexivity.
  - lia.
  - reflexivity.
Defined.

Lemma review_gating_witness :
  simulate_policy (NP := reference_numpy) 0 11 5 DEFAULT_NUM_CYCLES
    DEFAULT_COSTS DEFAULT_INITIAL_STATE DEFAULT_DISTRIBUTIONS (Some 42)
  = Ok (policy_A_rows, policy_A_total, policy_A_average)
  /\ Forall (fun r => 0 < Order_qty r -> Day r mod 5 = 0) policy_A_rows.
Proof.
  split; [exact policy_A_run_Ok|].
  apply Forall_forall. intros r Hr.
  exact (proj1 (review_gating (NP := reference_numpy) 0 11 5 DEFAULT_NUM_CYCLES
                  DEFAULT_COSTS DEFAULT_INITIAL_STATE DEFAULT_DISTRIBUTIONS
                  (Some 42) policy_A_rows policy_A_total policy_A_average
                  policy_A_run_Ok r Hr)).
Defined.

Lemma day_and_cycle_index_witness :
  valid_config (NP := reference_numpy) 11 5 DEFAULT_NUM_CYCLES DEFAULT_COSTS
    DEFAULT_INITIAL_STATE DEFAULT_DISTRIBUTIONS
  /\ simulate_policy (NP := reference_numpy) 0 11 5 DEFAULT_NUM_CYCLES
       DEFAULT_COSTS DEFAULT_INITIAL_STATE DEFAULT_DISTRIBUTIONS (Some 42)
     = Ok (policy_A_rows, policy_A_total, policy_A_average)
  /\ Z.of_nat (length policy_A_rows) = 5 * DEFAULT_NUM_CYCLES.
Proof.
  split; [exact policy_A_valid|].
  split; [exact policy_A_run_Ok|].
  exact (proj1 (day_and_cycle_index (NP := reference_numpy) 0 11 5 DEFAULT_NUM_CYCLES
                  DEFAULT_COSTS DEFAULT_INITIAL_STATE DEFAULT_DISTRIBUTIONS
                  (Some 42) policy_A_rows policy_A_total policy_A_average
                  policy_A_valid policy_A_run_Ok)).
Defined.

Lemma non_negativity_witness :
  valid_config (NP := reference_numpy) 11 5 DEFAULT_NUM_CYCLES DEFAULT_COSTS
    DEFAULT_INITIAL_STATE DEFAULT_DISTRIBUTIONS
  /\ simulate_policy (NP := reference_numpy) 0 11 5 DEFAULT_NUM_CYCLES
       DEFAULT_COSTS DEFAULT_INITIAL_STATE DEFAULT_DISTRIBUTIONS (Some 42)
     = Ok (policy_A_rows, policy_A_total, policy_A_average)
  /\ Forall (fun v => 0 <= v) DEMAND_VALUES
  /\ Forall (fun r => 0 <= Ending_inventory r /\ 0 <= Sales r) policy_A_rows.
Proof.
  split; [exact policy_A_valid|].
  split; [exact policy_A_run_Ok|].
  assert (Hdem : Forall (fun v => 0 <= v) DEMAND_VALUES)
    by (repeat constructor; lia).
  split; [exact Hdem|].
  apply Forall_forall. intros r Hr.
  destruct (non_negativity (NP := reference_numpy) 0 11 5 DEFAULT_NUM_CYCLES
              DEFAULT_COSTS DEFAULT_INITIAL_STATE DEFAULT_DISTRIBUTIONS
              (Some 42) policy_A_rows policy_A_total policy_A_average
                  policy_A_valid policy_A_run_Ok r Hr)
    as (He & _ & _ & _ & Hs).
  split; [exact He | exact (Hs Hdem)].
Defined.

(** One day with 5 units on hand and a demand of -1: the configuration
    meets every precondition, and the sales of the day are -1. *)
Lemma negative_sales_counterexample :
  exists r total_cost avg_cost_per_cycle,
    valid_config (NP := reference_numpy) 5 1 1 DEFAULT_COSTS
      {| on_hand := 5; outstanding_qty := 0; lead_remaining := 0 |}
      (point_distributions (-1) 1)
    /\ simulate_policy (NP := reference_numpy) 0 5 1 1 DEFAULT_COSTS
         {| on_hand := 5; outstanding_qty := 0; lead_remaining := 0 |}
         (point_distributions (-1) 1) (Some 42)
       = Ok ([r], total_cost, avg_cost_per_cycle)
    /\ Demand r = -1
    /\ Sales r = -1
    /\ ~ 0 <= Sales r.
Proof.
  eexists. eexists. eexists.
  split; [constructor; try (vm_compute; congruence); vm_compute; reflexivity|].
  split; [vm_compute; reflexivity|].
  cbn. repeat split; lia.
Qed.

Lemma lead_zero_run_Ok :
  simulate_policy (NP := reference_numpy) 0 7 1 2 DEFAULT_COSTS
    {| on_hand := 5; outstanding_qty := 0; lead_remaining := 0 |}
    (point_distributions 0 0) (Some 42)
  = Ok (lead_zero_rows, 350%float, 175%float).
Proof. vm_compute. reflexivity. Qed.

Lemma lead_zero_rows_as_lead_one :
  map Lead_time_new_order lead_zero_rows = [Some 0; None]
  /\ map Lead_time_new_order lead_one_rows = [Some 1; None]
  /\ map without_lead_time lead_zero_rows = map without_lead_time lead_one_rows.
Proof. repeat split; reflexivity. Qed.

Lemma lead_time_zero_as_one_witness :
  simulate_policy (NP := reference_numpy) 0 7 1 2 DEFAULT_COSTS
    {| on_hand := 5; outstanding_qty := 0; lead_remaining := 0 |}
    (point_distributions 0 0) (Some 42)
  = Ok (lead_zero_rows, 350%float, 175%float)
  /\ exists r r',
       nth_error lead_zero_rows 0 = Some r
       /\ nth_error lead_zero_rows 1 = Some r'
       /\ Lead_time_new_order r = Some 0
       /\ Order_qty r = 2
       /\ Lead_remaining_end r = 0
       /\ Incoming_today r' = Order_qty r.
Proof.
  split; [exact lead_zero_run_Ok|].
  eexists. eexists.
  split; [reflexivity|]. split; [reflexivity|].
  split; [reflexivity|]. split; [reflexivity|].
  pose proof (lead_time_zero_as_one (NP := reference_numpy) 0 7 1 2
                DEFAULT_COSTS
                {| on_hand := 5; outstanding_qty := 0; lead_remaining := 0 |}
                (point_distributions 0 0) (Some 42)
                lead_zero_rows 350%float 175%float
                lead_zero_run_Ok 0%nat _ eq_refl (or_introl eq_refl))
    as (_ & _ & _ & Hend & Hnext).
  split; [exact Hend | exact (Hnext _ eq_refl)].
Defined.

(** Scenario B at the default costs: 5 * 20 + 2 * 50 + 10 = 210. *)
Lemma scenario_B_valid :
  valid_config (NP := reference_numpy) 7 1 1 DEFAULT_COSTS
    {| on_hand := 5; outstanding_qty := 0; lead_remaining := 0 |}
    (point_distributions 0 1).
Proof.
  constructor; try (vm_compute; congruence); vm_compute; reflexivity.
Qed.

Lemma scenario_B_witness :
  valid_config (NP := reference_numpy) 7 1 1 DEFAULT_COSTS
    {| on_hand := 5; outstanding_qty := 0; lead_remaining := 0 |}
    (point_distributions 0 1)
  /\ default_rng (NP := reference_numpy) 0 (Some 42) = Ok 42
  /\ exists r avg_cost_per_cycle,
       simulate_policy (NP := reference_numpy) 0 7 1 1 DEFAULT_COSTS
         {| on_hand := 5; outstanding_qty := 0; lead_remaining := 0 |}
         (point_distributions 0 1) (Some 42)
       = Ok ([r], 210%float, avg_cost_per_cycle)
       /\ Order_qty r = 2
       /\ Purchasing_cost r = 100%float
       /\ Ordering_cost r = 10%float
       /\ Lead_time_new_order r = Some 1
       /\ Lead_remaining_end r = 0.
Proof.
  split; [exact scenario_B_valid|].
  split; [reflexivity|].
  destruct (scenario_B (NP := reference_numpy) 0 DEFAULT_COSTS (Some 42) 42
              scenario_B_valid eq_refl)
    as (r & avg & Hrun & _ & Hq & Hp & Ho & Hl & He).
  exists r, avg.
  repeat split; assumption.
Defined.



(** Without a seed the outcome does depend on the entropy of the system. *)
Lemma unseeded_runs_differ :
  simulate_policy (NP := reference_numpy) 3 11 5 1 DEFAULT_COSTS
    DEFAULT_INITIAL_STATE DEFAULT_DISTRIBUTIONS None
  <> simulate_policy (NP := reference_numpy) 0 11 5 1 DEFAULT_COSTS
       DEFAULT_INITIAL_STATE DEFAULT_DISTRIBUTIONS None.
Proof. vm_compute. intros H. discriminate H. Qed.

(** * More of the engine

    ** The loop composes *)

Lemma range_app (lo mid hi : Z) :
  lo <= mid <= hi -> range lo hi = range lo mid ++ range mid hi.
Proof.
  intros H. unfold range.
  replace (Z.to_nat (hi - lo))
    with (Z.to_nat (mid - lo) + Z.to_nat (hi - mid))%nat by lia.
  rewrite seq_app, map_app. f_equal.
  assert (Hshift : forall len s,
            map (fun i => lo + Z.of_nat i) (seq (s + Z.to_nat (mid - lo)) len)
            = map (fun i => mid + Z.of_nat i) (seq s len)).
  { induction len as [|len IH]; intros s; cbn.
    - reflexivity.
    - f_equal; [lia | apply (IH (S s))]. }
  apply (Hshift _ 0%nat).
Qed.

Lemma firstn_snoc {A : Type} (l : list A) (k : nat) (x : A) :
  nth_error l k = Some x -> firstn (S k) l = firstn k l ++ [x].
Proof.
  revert k. induction l as [|y l IH]; intros k Hk.
  - destruct k; discriminate.
  - destruct k as [|k]; cbn in Hk.
    + now injection Hk as ->.
    + cbn [firstn app]. f_equal. now apply IH.
Qed.

Lemma column_sum_app (xs ys : list Z) :
  column_sum (xs ++ ys) = column_sum xs + column_sum ys.
Proof.
  unfold column_sum. induction xs as [|x xs IH]; cbn; [reflexivity | lia].
Qed.

Section Engine.

Context `{NP : NumpyRandom}.

Variables (M N : Z) (costs : CostParameters)
  (distributions : DiscreteDistributions).

Abbreviation day_step' := (day_step M N costs distributions).
Abbreviation for_days' := (for_days M N costs distributions).
Abbreviation day_row' := (day_row M N costs distributions).
Abbreviation steps' := (steps M N costs distributions).

Lemma for_days_app (days1 days2 : list Z) (st : Locals) :
  for_days' (days1 ++ days2) st
  = bind (for_days' days1 st) (for_days' days2).
Proof.
  revert st. induction days1 as [|day rest IH]; intros st; cbn.
  - reflexivity.
  - destruct (day_step' day st) as [st1|e]; cbn; [apply IH | reflexivity].
Qed.

(** ** Balances and bounds kept by an iteration *)

Lemma steps_stock_balance (days : list Z) (st st' : Locals)
  (rows : list DayRecord) :
  steps' days st rows st' ->
  l_on_hand st' =
  l_on_hand st + column_sum (map Incoming_today rows)
  - column_sum (map Sales rows).
Proof.
  unfold column_sum.
  induction 1 as [|day rest st st1 st2 r rows Hrow _ IH]; cbn.
  - lia.
  - destruct (day_row_on_hand _ _ _ _ _ _ _ _ Hrow) as (Hstart & _ & Hnext).
    destruct (day_row_sales _ _ _ _ _ _ _ _ Hrow) as (_ & _ & Hend & _).
    lia.
Qed.

Lemma day_row_pipeline (day : Z) (st st' : Locals) (r : DayRecord) :
  day_row' day st r st' ->
  l_outstanding_qty st' + Incoming_today r
  = l_outstanding_qty st + Order_qty r
  /\ 0 <= Order_qty r
  /\ (0 <= l_outstanding_qty st -> 0 <= l_outstanding_qty st').
Proof.
  intros Hrow.
  destruct (day_row_receive _ _ _ _ _ _ _ _ Hrow)
    as [(_ & Hpos & Hin & Hdec) | (_ & Hin & Hdec)];
    destruct (day_row_order _ _ _ _ _ _ _ _ Hrow)
      as [(Hdue & _ & Hq & _ & _ & _ & Hout & _)
         | (_ & Hzero & _ & _ & _ & Hkeep & _)];
    try (apply order_due_true in Hdue; destruct Hdue as (_ & Hlt & Hnone));
    repeat split; lia.
Qed.

Lemma steps_pipeline_balance (days : list Z) (st st' : Locals)
  (rows : list DayRecord) :
  steps' days st rows st' ->
  l_outstanding_qty st' + column_sum (map Incoming_today rows)
  = l_outstanding_qty st + column_sum (map Order_qty rows)
  /\ (0 <= l_outstanding_qty st -> 0 <= l_outstanding_qty st').
Proof.
  unfold column_sum.
  induction 1 as [|day rest st st1 st2 r rows Hrow _ IH]; cbn.
  - split; [lia | auto].
  - destruct (day_row_pipeline _ _ _ _ Hrow) as (Hbal & _ & Hpos).
    destruct IH as (IHbal & IHpos). split; [lia | auto].
Qed.

(** The inventory position, on hand plus on order, stays under the larger of
    [M] and the initial position, as long as no demand is negative. *)
Lemma day_row_position (B day : Z) (st st' : Locals) (r : DayRecord) :
  M <= B ->
  Forall (fun v => 0 <= v) (demand_values distributions) ->
  0 <= l_on_hand st /\ 0 <= l_outstanding_qty st
  /\ l_on_hand st + l_outstanding_qty st <= B ->
  day_row' day st r st' ->
  (0 <= l_on_hand st' /\ 0 <= l_outstanding_qty st'
   /\ l_on_hand st' + l_outstanding_qty st' <= B)
  /\ 0 <= On_hand_start r <= B
  /\ 0 <= Ending_inventory r <= B
  /\ 0 <= Order_qty r <= B.
Proof.
  intros HB Hdem (Hoh & Hout & Hsum) Hrow.
  destruct (day_row_on_hand _ _ _ _ _ _ _ _ Hrow) as (Hstart & Hinc & Hnext).
  destruct (day_row_sales _ _ _ _ _ _ _ _ Hrow) as (Hs & _ & Hend & Hd).
  rewrite Forall_forall in Hdem. apply Hdem in Hd.
  destruct (day_row_receive _ _ _ _ _ _ _ _ Hrow)
    as [(_ & Hpos & Hin & Hdec) | (_ & Hin & Hdec)];
    destruct (day_row_order _ _ _ _ _ _ _ _ Hrow)
      as [(Hdue & _ & Hq & _ & _ & _ & Hout' & _)
         | (_ & Hzero & _ & _ & _ & Hkeep & _)];
    try (apply order_due_true in Hdue; destruct Hdue as (_ & Hlt & Hnone));
    repeat split; lia.
Qed.

(** The three quantities of the inventory state never go negative. *)
Lemma day_row_state_sign (day : Z) (st st' : Locals) (r : DayRecord) :
  Forall (fun v => 0 <= v) (lead_values distributions) ->
  0 <= l_on_hand st /\ 0 <= l_outstanding_qty st /\ 0 <= l_lead_remaining st ->
  day_row' day st r st' ->
  (0 <= l_on_hand st' /\ 0 <= l_outstanding_qty st'
   /\ 0 <= l_lead_remaining st')
  /\ 0 <= On_hand_start r
  /\ 0 <= Incoming_today r
  /\ 0 <= Order_qty r
  /\ 0 <= Lead_remaining_end r
  /\ (forall l, Lead_time_new_order r = Some l -> 0 <= l).
Proof.
  intros Hlead (Hoh & Hout & Hrem) Hrow.
  destruct (day_row_on_hand _ _ _ _ _ _ _ _ Hrow) as (Hstart & Hinc & Hnext).
  destruct (day_row_sales _ _ _ _ _ _ _ _ Hrow) as (Hs & _ & Hend & _).
  destruct (day_row_pipeline _ _ _ _ Hrow) as (_ & Hq & Hout').
  rewrite Forall_forall in Hlead.
  assert (Hdecr : forall q l, 0 <= l -> 0 <= decrease_lead q l).
  { intros q l Hl. unfold decrease_lead.
    destruct ((q >? 0) && (l >? 0)) eqn:E; [|exact Hl].
    apply andb_true_iff in E. lia. }
  destruct (day_row_order _ _ _ _ _ _ _ _ Hrow)
    as [(_ & _ & _ & (l & Hl & Hin & Hdec) & _ & _ & _ & Hrec)
       | (_ & _ & Hnone & _ & _ & _ & Hdec & Hrec)].
  - apply Hlead in Hin. pose proof (Hdecr (Order_qty r) l Hin) as Hd.
    repeat split; try lia.
    intros l' E. rewrite Hl in E. injection E as <-. exact Hin.
  - pose proof (Hdecr (outstanding_at_decision st) _ Hrem) as Hd.
    repeat split; try lia.
    intros l' E. rewrite Hnone in E. discriminate.
Qed.

(** An order in flight with [n] days left to wait: nothing comes in and no
    order is placed on the next [n] days, and the order comes in on the day
    after them. *)
Lemma steps_lead_countdown (n : nat) :
  forall days st rows st',
    steps' days st rows st' ->
    0 < l_outstanding_qty st ->
    l_lead_remaining st = Z.of_nat n ->
    (forall i r, (i < n)%nat -> nth_error rows i = Some r ->
       Incoming_today r = 0 /\ Order_qty r = 0)
    /\ (forall r, nth_error rows n = Some r ->
          Incoming_today r = l_outstanding_qty st).
Proof.
  induction n as [|n IH]; intros days st rows st' Hsteps Hout Hrem.
  - split; [intros i r Hi; lia|].
    intros r Hr. destruct Hsteps as [st|day rest st st1 st2 r0 rows Hrow _].
    + discriminate.
    + cbn in Hr. injection Hr as <-.
      destruct (day_row_receive _ _ _ _ _ _ _ _ Hrow)
        as [(_ & _ & Hin & _) | (Hno & _)]; [exact Hin|].
      exfalso. apply Hno. split; [exact Hrem | exact Hout].
  - destruct Hsteps as [st|day rest st st1 st2 r0 rows Hrow Hrest].
    + split; [intros i r _ Hr; destruct i; discriminate
            | intros r Hr; discriminate].
    + destruct (day_row_receive _ _ _ _ _ _ _ _ Hrow)
        as [(Hzero & _) | (_ & Hin & Hdec)]; [lia|].
      destruct (day_row_order _ _ _ _ _ _ _ _ Hrow)
        as [(Hdue & _) | (_ & Hq & _ & _ & _ & Hkeep & Hlead & _)].
      { apply order_due_true in Hdue. lia. }
      assert (Hrem1 : l_lead_remaining st1 = Z.of_nat n).
      { rewrite Hlead, Hdec. unfold decrease_lead.
        replace (l_outstanding_qty st >? 0) with true by (symmetry; lia).
        replace (l_lead_remaining st >? 0) with true by (symmetry; lia).
        cbn. lia. }
      destruct (IH _ _ _ _ Hrest ltac:(lia) Hrem1) as (IHwait & IHcome).
      split.
      * intros i r Hi Hr. destruct i as [|i]; cbn in Hr.
        -- injection Hr as <-. split; assumption.
        -- apply (IHwait i r); [lia | exact Hr].
      * intros r Hr. cbn in Hr. rewrite (IHcome r Hr). lia.
Qed.

(** What an invariant of the iteration implies for a row holds for every
    row of the run. *)
Lemma steps_rows (Inv : Locals -> Prop) (P : DayRecord -> Prop) :
  (forall day st r st', Inv st -> day_row' day st r st' -> Inv st' /\ P r) ->
  forall days st rows st',
    steps' days st rows st' -> Inv st -> forall r, In r rows -> P r.
Proof.
  intros Hstep. induction 1 as [|day rest st st1 st2 r0 rows Hrow _ IH];
    intros Hinv r Hr.
  - destruct Hr.
  - destruct (Hstep _ _ _ _ Hinv Hrow) as [Hinv1 HP].
    destruct Hr as [<- | Hr]; [exact HP | now apply IH].
Qed.

(** *** A run as a whole *)

Lemma run_length (os : Entropy) (num_cycles : Z)
  (initial_state : InitialState) (seed : option Z)
  (df : list DayRecord) (total_cost avg_cost_per_cycle : float) :
  simulate_policy os M N num_cycles costs initial_state distributions seed
    = Ok (df, total_cost, avg_cost_per_cycle) ->
  length df = Z.to_nat (N * num_cycles).
Proof.
  intros H.
  destruct (simulate_policy_Ok _ _ _ _ _ _ _ _ _ _ _ H)
    as (rng & st & _ & Hsteps & _).
  rewrite (steps_length _ _ _ _ _ _ _ _ Hsteps), range_length. f_equal. lia.
Qed.

Lemma run_position (os : Entropy) (num_cycles : Z)
  (initial_state : InitialState) (seed : option Z)
  (df : list DayRecord) (total_cost avg_cost_per_cycle : float) (B : Z) :
  M <= B ->
  on_hand initial_state + outstanding_qty initial_state <= B ->
  0 <= on_hand initial_state ->
  0 <= outstanding_qty initial_state ->
  Forall (fun v => 0 <= v) (demand_values distributions) ->
  simulate_policy os M N num_cycles costs initial_state distributions seed
    = Ok (df, total_cost, avg_cost_per_cycle) ->
  forall r, In r df ->
    0 <= On_hand_start r <= B
    /\ 0 <= Ending_inventory r <= B
    /\ 0 <= Order_qty r <= B.
Proof.
  intros HM HB Hoh Hout Hdem H.
  destruct (simulate_policy_Ok _ _ _ _ _ _ _ _ _ _ _ H)
    as (rng & st & _ & Hsteps & _).
  apply (steps_rows
           (fun s => 0 <= l_on_hand s /\ 0 <= l_outstanding_qty s
                     /\ l_on_hand s + l_outstanding_qty s <= B)
           (fun r => 0 <= On_hand_start r <= B
                     /\ 0 <= Ending_inventory r <= B
                     /\ 0 <= Order_qty r <= B)) with (2 := Hsteps).
  - intros day sta r stb Hinv Hrow.
    now apply (day_row_position B day sta stb r).
  - cbn. lia.
Qed.

Lemma run_demand (os : Entropy) (num_cycles : Z)
  (initial_state : InitialState) (seed : option Z)
  (df : list DayRecord) (total_cost avg_cost_per_cycle : float) :
  simulate_policy os M N num_cycles costs initial_state distributions seed
    = Ok (df, total_cost, avg_cost_per_cycle) ->
  forall r, In r df -> In (Demand r) (demand_values distributions).
Proof.
  intros H.
  destruct (simulate_policy_Ok _ _ _ _ _ _ _ _ _ _ _ H)
    as (rng & st & _ & Hsteps & _).
  apply Forall_forall.
  eapply steps_Forall; [|exact Hsteps].
  intros day sta r stb Hrow. now apply day_row_sales in Hrow.
Qed.

(** *** Review days and orders, counted *)

Lemma range_In (lo hi d : Z) : In d (range lo hi) -> lo <= d < hi.
Proof.
  unfold range. rewrite in_map_iff. intros (i & <- & Hi).
  apply in_seq in Hi. lia.
Qed.

Lemma filter_none {A : Type} (f : A -> bool) (l : list A) :
  (forall x, In x l -> f x = false) -> filter f l = [].
Proof.
  induction l as [|x l IH]; intros H; cbn.
  - reflexivity.
  - rewrite (H x (or_introl eq_refl)). apply IH.
    intros y Hy. apply H. now right.
Qed.

(** The days 1 to [N * c] hold exactly [c] review days. *)
Lemma review_days_in_range (c : nat) :
  1 <= N ->
  length (filter (fun d => d mod N =? 0) (range 1 (N * Z.of_nat c + 1))) = c.
Proof.
  intros HN. induction c as [|c IH].
  - rewrite Z.mul_0_r. reflexivity.
  - rewrite (range_app 1 (N * Z.of_nat c + 1)) by nia.
    rewrite (range_app (N * Z.of_nat c + 1) (N * Z.of_nat (S c))) by nia.
    rewrite !filter_app, !length_app, IH.
    rewrite filter_none.
    + replace (range (N * Z.of_nat (S c)) (N * Z.of_nat (S c) + 1))
        with [N * Z.of_nat (S c)].
      * cbn [filter]. rewrite Z.mul_comm, Z_mod_mult. cbn. lia.
      * unfold range.
        replace (Z.to_nat (N * Z.of_nat (S c) + 1 - N * Z.of_nat (S c)))
          with 1%nat by lia.
        cbn. f_equal. lia.
    + intros d Hd. apply range_In in Hd. apply Z.eqb_neq. intros Hmod.
      apply Z.mod_divide in Hmod; [|lia]. destruct Hmod as (t & ->).
      rewrite Nat2Z.inj_succ in Hd.
      assert (Z.of_nat c < t) by nia. assert (t < Z.of_nat c + 1) by nia.
      lia.
Qed.

Lemma steps_orders_on_review_days (days : list Z) (st st' : Locals)
  (rows : list DayRecord) :
  steps' days st rows st' ->
  (length (filter (fun r => (0 <? Order_qty r)%Z) rows)
   <= length (filter (fun d => (d mod N =? 0)%Z) days))%nat.
Proof.
  induction 1 as [|day rest st st1 st2 r rows Hrow _ IH]; cbn.
  - lia.
  - destruct (day_row_order _ _ _ _ _ _ _ _ Hrow)
      as [(Hdue & _) | (_ & Hzero & _)].
    + apply order_due_true in Hdue. destruct Hdue as (-> & _).
      destruct (0 <? Order_qty r); cbn; lia.
    + rewrite Hzero. cbn. destruct (day mod N =? 0); cbn; lia.
Qed.

End Engine.

(** *** The costs stay out of the flow of units *)

Section Flow.

Context `{NP : NumpyRandom}.

Variables (M N : Z) (costs1 costs2 : CostParameters)
  (distributions : DiscreteDistributions).

Lemma day_step_flow (day : Z) (st1 st2 st1' : Locals) :
  same_flow st1 st2 ->
  day_step M N costs1 distributions day st1 = Ok st1' ->
  exists st2',
    day_step M N costs2 distributions day st2 = Ok st2'
    /\ same_flow st1' st2'.
Proof.
  intros (Hoh & Hout & Hrem & Hrng & Hrec).
  unfold day_step, py_floordiv, py_mod, py_mul, py_float,
    _sample_from_discrete, choice.
  rewrite <- Hoh, <- Hout, <- Hrem, <- Hrng.
  destruct (N =? 0); cbn [bind]; [discriminate|].
  destruct (receive_order _ _ _) as [[incoming on_hand'] outstanding'].
  destruct (accepts (demand_values distributions) _); cbn [bind];
    [|discriminate].
  destruct (draw _ _ (l_rng st1)) as [demand g].
  destruct (fits_float (on_hand' - _)); cbn [bind]; [|discriminate].
  destruct (fits_float (Z.max _ _)); cbn [bind]; [|discriminate].
  destruct (order_due _ _ _ _); cbn [bind].
  - destruct (accepts (lead_values distributions) _); cbn [bind];
      [|discriminate].
    destruct (draw _ _ g) as [lead g']. cbn [bind].
    destruct (fits_float (M - _)); cbn [bind]; [|discriminate].
    intros H. injection H as <-. eexists. split; [reflexivity|].
    unfold same_flow. cbn. rewrite !map_app, Hrec. auto.
  - intros H. injection H as <-. eexists. split; [reflexivity|].
    unfold same_flow. cbn. rewrite !map_app, Hrec. auto.
Qed.

Lemma for_days_flow (days : list Z) (st1 st2 st1' : Locals) :
  same_flow st1 st2 ->
  for_days M N costs1 distributions days st1 = Ok st1' ->
  exists st2',
    for_days M N costs2 distributions days st2 = Ok st2'
    /\ same_flow st1' st2'.
Proof.
  revert st1 st2. induction days as [|day rest IH]; intros st1 st2 Hflow; cbn.
  - intros H. injection H as <-. now exists st2.
  - intros H. apply bind_Ok in H. destruct H as (sta & Hstep & Hrest).
    destruct (day_step_flow _ _ _ _ Hflow Hstep) as (stb & -> & Hflow').
    cbn [bind]. exact (IH _ _ Hflow' Hrest).
Qed.

End Flow.

(** ** Further properties of a run *)

Section Run.

Context `{NP : NumpyRandom}.

(** X1.  Every row splits its demand into what was sold and what was short,
    keeps what the demand left of the stock, is short only when the whole
    stock of the day was sold, and draws its demand from the values of the
    demand distribution. *)
Theorem demand_split (os : Entropy) (M N num_cycles : Z)
  (costs : CostParameters) (initial_state : InitialState)
  (distributions : DiscreteDistributions) (seed : option Z)
  (df : list DayRecord) (total_cost avg_cost_per_cycle : float) :
  simulate_policy os M N num_cycles costs initial_state distributions seed
    = Ok (df, total_cost, avg_cost_per_cycle) ->
  forall r, In r df ->
    Sales r + Shortage_qty r = Demand r
    /\ Ending_inventory r = Z.max (On_hand_start r - Demand r) 0
    /\ (0 < Shortage_qty r ->
        Ending_inventory r = 0 /\ Sales r = On_hand_start r)
    /\ In (Demand r) (demand_values distributions).
Proof.
  intros H.
  destruct (simulate_policy_Ok _ _ _ _ _ _ _ _ _ _ _ H)
    as (rng & st & _ & Hsteps & _).
  apply Forall_forall.
  eapply steps_Forall; [|exact Hsteps].
  intros day sta r stb Hrow.
  destruct (day_row_sales _ _ _ _ _ _ _ _ Hrow) as (Hs & Hq & He & Hd).
  repeat split; try lia. exact Hd.
Qed.

(** X2.  A row orders nothing or orders up to [M]: an order quantity is
    positive exactly when a lead time is recorded, it then brings the ending
    inventory, which was below [M], up to [M], costs [OrderQty * unit_cost]
    plus the flat fee, and its lead time is a value of the lead-time
    distribution. *)
Theorem order_up_to (os : Entropy) (M N num_cycles : Z)
  (costs : CostParameters) (initial_state : InitialState)
  (distributions : DiscreteDistributions) (seed : option Z)
  (df : list DayRecord) (total_cost avg_cost_per_cycle : float) :
  simulate_policy os M N num_cycles costs initial_state distributions seed
    = Ok (df, total_cost, avg_cost_per_cycle) ->
  forall r, In r df ->
    0 <= Order_qty r
    /\ (Order_qty r = 0 <-> Lead_time_new_order r = None)
    /\ (0 < Order_qty r ->
        Ending_inventory r < M
        /\ Ending_inventory r + Order_qty r = M
        /\ Purchasing_cost r = int_mul_float (Order_qty r) (unit_cost costs)
        /\ Ordering_cost r = ordering_cost costs
        /\ exists l, Lead_time_new_order r = Some l
                     /\ In l (lead_values distributions)).
Proof.
  intros H.
  destruct (simulate_policy_Ok _ _ _ _ _ _ _ _ _ _ _ H)
    as (rng & st & _ & Hsteps & _).
  apply Forall_forall.
  eapply steps_Forall; [|exact Hsteps].
  intros day sta r stb Hrow.
  destruct (day_row_order _ _ _ _ _ _ _ _ Hrow)
    as [(Hdue & _ & Hq & (l & Hl & Hin & _) & Hp & Ho & _)
       | (_ & Hzero & Hnone & _)].
  - apply order_due_true in Hdue. destruct Hdue as (_ & Hlt & _).
    split; [lia|]. split.
    + split; [lia | rewrite Hl; discriminate].
    + intros _. repeat split; try assumption; try lia. now exists l.
  - split; [lia|]. split; [tauto | lia].
Qed.

(** X3.  An order placed on the row of index [k] with a sampled lead time
    [lead >= 0] comes in, whole, on the row of index [k + max(lead, 1)]; on
    the rows in between nothing comes in and nothing is ordered. *)
Theorem order_arrival (os : Entropy) (M N num_cycles : Z)
  (costs : CostParameters) (initial_state : InitialState)
  (distributions : DiscreteDistributions) (seed : option Z)
  (df : list DayRecord) (total_cost avg_cost_per_cycle : float) :
  simulate_policy os M N num_cycles costs initial_state distributions seed
    = Ok (df, total_cost, avg_cost_per_cycle) ->
  forall k r lead,
    nth_error df k = Some r ->
    Lead_time_new_order r = Some lead ->
    0 <= lead ->
    (forall i ri,
       (k < i < arrival_row k lead)%nat -> nth_error df i = Some ri ->
       Incoming_today ri = 0 /\ Order_qty ri = 0)
    /\ (forall r', nth_error df (arrival_row k lead) = Some r' ->
          Incoming_today r' = Order_qty r).
Proof.
  intros H k r lead Hk Hlead Hpos.
  destruct (simulate_policy_Ok _ _ _ _ _ _ _ _ _ _ _ H)
    as (rng & st & _ & Hsteps & _).
  destruct (steps_nth _ _ _ _ _ _ _ _ _ _ Hsteps Hk)
    as (day & sta & stb & _ & _ & Hrow & Hpost).
  destruct (day_row_order _ _ _ _ _ _ _ _ Hrow)
    as [(Hdue & _ & Hq & (l & Hl & _ & Hdec) & _ & _ & Hout & _)
       | (_ & _ & Hnone & _)]; [|congruence].
  apply order_due_true in Hdue. destruct Hdue as (_ & Hlt & _).
  assert (l = lead) by congruence. subst l.
  assert (Hrem : l_lead_remaining stb
                 = Z.of_nat (Z.to_nat (Z.max lead 1) - 1)).
  { rewrite Hdec. unfold decrease_lead.
    replace (Order_qty r >? 0) with true by (symmetry; lia).
    destruct (lead >? 0) eqn:E; cbn; lia. }
  destruct (steps_lead_countdown _ _ _ _ _ _ _ _ _ Hpost ltac:(lia) Hrem)
    as (Hwait & Hcome).
  unfold arrival_row. split.
  - intros i ri Hi Hri.
    apply (Hwait (i - S k)%nat ri); [lia|].
    rewrite nth_error_skipn. rewrite <- Hri. f_equal. lia.
  - intros r' Hr'. rewrite <- Hout. apply Hcome.
    rewrite nth_error_skipn. rewrite <- Hr'. f_equal. lia.
Qed.

(** X4.  With a valid configuration and no negative demand value, the stock
    on hand at the start of a day, the ending inventory and the order
    quantity all stay between 0 and the larger of [M] and the initial
    inventory position (on hand plus on order). *)
Theorem stock_bounded_by_position (os : Entropy) (M N num_cycles : Z)
  (costs : CostParameters) (initial_state : InitialState)
  (distributions : DiscreteDistributions) (seed : option Z)
  (df : list DayRecord) (total_cost avg_cost_per_cycle : float) :
  valid_config M N num_cycles costs initial_state distributions ->
  Forall (fun v => 0 <= v) (demand_values distributions) ->
  simulate_policy os M N num_cycles costs initial_state distributions seed
    = Ok (df, total_cost, avg_cost_per_cycle) ->
  forall r, In r df ->
    let B := Z.max M (on_hand initial_state + outstanding_qty initial_state) in
    0 <= On_hand_start r <= B
    /\ 0 <= Ending_inventory r <= B
    /\ 0 <= Order_qty r <= B.
Proof.
  intros Hvalid Hdem H.
  destruct Hvalid as [_ _ _ _ Hoh Hout _ _ _].
  apply (run_position M N costs distributions os num_cycles initial_state
           seed df total_cost avg_cost_per_cycle); try assumption; lia.
Qed.

(** X5.  With a valid configuration and no negative lead-time value, the
    stock at the start of a day, the units coming in, the order quantity and
    the lead time left at the end of the day are never negative. *)
Theorem state_never_negative (os : Entropy) (M N num_cycles : Z)
  (costs : CostParameters) (initial_state : InitialState)
  (distributions : DiscreteDistributions) (seed : option Z)
  (df : list DayRecord) (total_cost avg_cost_per_cycle : float) :
  valid_config M N num_cycles costs initial_state distributions ->
  Forall (fun v => 0 <= v) (lead_values distributions) ->
  simulate_policy os M N num_cycles costs initial_state distributions seed
    = Ok (df, total_cost, avg_cost_per_cycle) ->
  forall r, In r df ->
    0 <= On_hand_start r
    /\ 0 <= Incoming_today r
    /\ 0 <= Order_qty r
    /\ 0 <= Lead_remaining_end r
    /\ (forall l, Lead_time_new_order r = Some l -> 0 <= l).
Proof.
  intros Hvalid Hlead H.
  destruct (simulate_policy_Ok _ _ _ _ _ _ _ _ _ _ _ H)
    as (rng & st & _ & Hsteps & _).
  apply (steps_rows M N costs distributions
           (fun s => 0 <= l_on_hand s /\ 0 <= l_outstanding_qty s
                     /\ 0 <= l_lead_remaining s)) with (2 := Hsteps).
  - intros day sta r stb Hinv Hrow.
    now apply (day_row_state_sign M N costs distributions day sta stb r).
  - destruct Hvalid as [_ _ _ _ Hoh Hout Hrem _ _]. cbn. lia.
Qed.

(** X6.  What a call raises once its generator is created.
    ZeroDivisionError exactly when [num_cycles] is 0, whatever [N] is.
    ValueError only from the sampler, on a run of at least one day and for a
    distribution it rejects.  OverflowError only with a [num_cycles] other
    than 0 that is too large for a float or on a run of at least one day,
    and never for a configuration whose integers are in the range of the
    floats and whose initial quantities are not negative. *)
Theorem exceptions_of_a_call (os : Entropy) (M N num_cycles : Z)
  (costs : CostParameters) (initial_state : InitialState)
  (distributions : DiscreteDistributions) (seed : option Z)
  (rng : Generator) :
  default_rng os seed = Ok rng ->
  (simulate_policy os M N num_cycles costs initial_state distributions seed
     = Raise ZeroDivisionError
   <-> num_cycles = 0)
  /\ (simulate_policy os M N num_cycles costs initial_state distributions
        seed = Raise ValueError ->
      1 <= N * num_cycles
      /\ (accepts (demand_values distributions)
            (demand_probs distributions) = false
          \/ accepts (lead_values distributions)
               (lead_probs distributions) = false))
  /\ (simulate_policy os M N num_cycles costs initial_state distributions
        seed = Raise OverflowError ->
      num_cycles <> 0
      /\ (float_int_bound <= Z.abs num_cycles \/ 1 <= N * num_cycles))
  /\ (0 <= on_hand initial_state ->
      0 <= outstanding_qty initial_state ->
      float_sized M num_cycles initial_state distributions ->
      simulate_policy os M N num_cycles costs initial_state distributions
        seed <> Raise OverflowError).
Proof.
  intros Hrng.
  pose proof (simulate_policy_Raise M N costs distributions os num_cycles
                initial_state seed rng) as Hraise.
  split; [split|split; [|split]].
  - intros H. apply Hraise in H; [|exact Hrng].
    destruct H as [(_ & H) | [(H & _) | (H & _)]];
      [exact H | discriminate | discriminate].
  - intros ->. unfold simulate_policy. rewrite Hrng. cbn [bind].
    rewrite Z.mul_0_r. change (range 1 (0 + 1)) with (@nil Z).
    cbn [for_days bind]. unfold py_truediv, py_float.
    replace (fits_float 0) with true by (vm_compute; reflexivity).
    reflexivity.
  - intros H. apply Hraise in H; [|exact Hrng].
    destruct H as [(H & _) | [(_ & H) | (H & _)]];
      [discriminate | exact H | discriminate].
  - intros H. apply Hraise in H; [|exact Hrng].
    destruct H as [(H & _) | [(H & _) | (_ & Hc & H)]];
      [discriminate | discriminate |].
    split; [exact Hc|].
    destruct H as [(Hfit & _) | (Hdays & _)]; [left | now right].
    now apply fits_float_false.
  - intros Hoh Hout [HM Hnc Hpos Hdem] H.
    apply Hraise in H; [|exact Hrng].
    destruct H as [(H & _) | [(H & _) | (_ & _ & H)]];
      [discriminate | discriminate |].
    destruct H as [(Hfit & _) | (_ & Hloop)].
    + apply fits_float_false in Hfit. lia.
    + apply (for_days_sized M N costs distributions
               (Z.max M (on_hand initial_state
                         + outstanding_qty initial_state)))
        in Hloop; [congruence | lia | lia | exact Hdem | cbn; lia].
Qed.

(** X7.  When [N * num_cycles] is not positive and [num_cycles] is not 0,
    no day is simulated and nothing is drawn, whatever the distributions,
    the costs and the initial state are: the call returns no row, the total
    [0.0] and the average [0.0 / num_cycles] when [num_cycles] converts to a
    float, and raises OverflowError when it does not. *)
Theorem empty_horizon (os : Entropy) (M N num_cycles : Z)
  (costs : CostParameters) (initial_state : InitialState)
  (distributions : DiscreteDistributions) (seed : option Z)
  (rng : Generator) :
  default_rng os seed = Ok rng ->
  N * num_cycles <= 0 ->
  num_cycles <> 0 ->
  (Z.abs num_cycles < float_int_bound ->
   simulate_policy os M N num_cycles costs initial_state distributions seed
   = Ok ([], 0%float, (0 / float_of_int num_cycles)%float))
  /\ (float_int_bound <= Z.abs num_cycles ->
      simulate_policy os M N num_cycles costs initial_state distributions seed
      = Raise OverflowError).
Proof.
  intros Hrng Hdays Hc.
  unfold simulate_policy. rewrite Hrng. cbn [bind].
  assert (Hnil : range 1 (N * num_cycles + 1) = []).
  { apply length_zero_iff_nil. rewrite range_length. lia. }
  rewrite Hnil. cbn [for_days bind initial_locals l_total_cost l_records].
  unfold py_truediv, py_float. split; intros Hfit.
  - replace (fits_float num_cycles) with true
      by (symmetry; apply fits_float_true; lia).
    cbn [bind].
    replace (num_cycles =? 0) with false by (symmetry; now apply Z.eqb_neq).
    reflexivity.
  - replace (fits_float num_cycles) with false
      by (symmetry; now apply fits_float_false).
    reflexivity.
Qed.

(** X8.  With a generator at hand, a [num_cycles] other than 0, two
    distributions the sampler accepts, initial quantities that are not
    negative and integers in the range of the floats, a call returns, with
    one row per day, for every [N], every cost and every lead time. *)
Theorem returns_for_accepted_distributions (os : Entropy) (M N num_cycles : Z)
  (costs : CostParameters) (initial_state : InitialState)
  (distributions : DiscreteDistributions) (seed : option Z)
  (rng : Generator) :
  default_rng os seed = Ok rng ->
  num_cycles <> 0 ->
  accepts (demand_values distributions) (demand_probs distributions) = true ->
  accepts (lead_values distributions) (lead_probs distributions) = true ->
  0 <= on_hand initial_state ->
  0 <= outstanding_qty initial_state ->
  float_sized M num_cycles initial_state distributions ->
  exists df total_cost avg_cost_per_cycle,
    simulate_policy os M N num_cycles costs initial_state distributions seed
      = Ok (df, total_cost, avg_cost_per_cycle)
    /\ length df = Z.to_nat (N * num_cycles).
Proof.
  intros Hrng Hc Hd Hl Hoh Hout Hsized.
  destruct (run_returns M N costs distributions os num_cycles initial_state
              seed rng Hrng Hc Hd Hl Hoh Hout Hsized) as (df & t & a & H).
  exists df, t, a. split; [exact H|].
  exact (run_length _ _ _ _ _ _ _ _ _ _ _ H).
Qed.

(** X9.  Under one seed a longer horizon extends a shorter one: if the call
    for [c2] cycles returns, the call for [c1 <= c2] cycles returns too, and
    its rows are the first rows of the longer run. *)
Theorem longer_horizon_extends (os1 os2 : Entropy) (M N c1 c2 : Z)
  (costs : CostParameters) (initial_state : InitialState)
  (distributions : DiscreteDistributions) (seed : Z)
  (df2 : list DayRecord) (total2 avg2 : float) :
  0 <= N ->
  1 <= c1 <= c2 ->
  simulate_policy os2 M N c2 costs initial_state distributions (Some seed)
    = Ok (df2, total2, avg2) ->
  exists df1 total1 avg1 rest,
    simulate_policy os1 M N c1 costs initial_state distributions (Some seed)
      = Ok (df1, total1, avg1)
    /\ df2 = df1 ++ rest.
Proof.
  intros HN Hc. unfold simulate_policy, default_rng.
  destruct (seeded seed) as [rng|e]; cbn [bind]; [|discriminate].
  rewrite (range_app 1 (N * c1 + 1) (N * c2 + 1)) by nia.
  rewrite for_days_app.
  destruct (for_days M N costs distributions (range 1 (N * c1 + 1))
              (initial_locals initial_state rng)) as [st1|e] eqn:H1;
    cbn [bind]; [|discriminate].
  intros H.
  apply bind_Ok in H. destruct H as (st2 & H2 & H).
  apply bind_Ok in H. destruct H as (a2 & Hdiv & H).
  injection H as <- _ _.
  destruct (for_days_steps _ _ _ _ _ _ _ H2) as (rest & _ & Hrecs).
  apply py_truediv_Ok in Hdiv. destruct Hdiv as (Hfit & _).
  apply fits_float_true in Hfit.
  unfold py_truediv, py_float.
  replace (fits_float c1) with true by (symmetry; apply fits_float_true; lia).
  cbn [bind].
  replace (c1 =? 0) with false by (symmetry; apply Z.eqb_neq; lia).
  eexists. eexists. eexists. exists rest.
  split; [reflexivity | exact Hrecs].
Qed.

(** X10.  The stock balance: the ending inventory of a day is the initial
    on-hand, plus everything that came in, minus everything that was sold,
    up to and including that day. *)
Theorem stock_balance (os : Entropy) (M N num_cycles : Z)
  (costs : CostParameters) (initial_state : InitialState)
  (distributions : DiscreteDistributions) (seed : option Z)
  (df : list DayRecord) (total_cost avg_cost_per_cycle : float) :
  simulate_policy os M N num_cycles costs initial_state distributions seed
    = Ok (df, total_cost, avg_cost_per_cycle) ->
  forall k r,
    nth_error df k = Some r ->
    Ending_inventory r =
    on_hand initial_state
    + column_sum (map Incoming_today (firstn (S k) df))
    - column_sum (map Sales (firstn (S k) df)).
Proof.
  intros H k r Hk.
  destruct (simulate_policy_Ok _ _ _ _ _ _ _ _ _ _ _ H)
    as (rng & st & _ & Hsteps & _).
  destruct (steps_nth _ _ _ _ _ _ _ _ _ _ Hsteps Hk)
    as (day & sta & stb & _ & Hpre & Hrow & _).
  apply steps_stock_balance in Hpre. cbn [initial_locals l_on_hand] in Hpre.
  destruct (day_row_on_hand _ _ _ _ _ _ _ _ Hrow) as (Hstart & _ & _).
  destruct (day_row_sales _ _ _ _ _ _ _ _ Hrow) as (_ & _ & Hend & _).
  rewrite (firstn_snoc _ _ _ Hk), !map_app, !column_sum_app.
  cbn. lia.
Qed.

(** X11.  The pipeline balance: what came in over the run, plus what is
    still on order at its end, is what was on order at the start plus what
    was ordered; with nothing negative on order at the start, a run never
    receives more than that. *)
Theorem pipeline_balance (os : Entropy) (M N num_cycles : Z)
  (costs : CostParameters) (initial_state : InitialState)
  (distributions : DiscreteDistributions) (seed : option Z)
  (df : list DayRecord) (total_cost avg_cost_per_cycle : float) :
  0 <= outstanding_qty initial_state ->
  simulate_policy os M N num_cycles costs initial_state distributions seed
    = Ok (df, total_cost, avg_cost_per_cycle) ->
  exists on_order_at_end,
    0 <= on_order_at_end
    /\ column_sum (map Incoming_today df) + on_order_at_end
       = outstanding_qty initial_state + column_sum (map Order_qty df).
Proof.
  intros Hout H.
  destruct (simulate_policy_Ok _ _ _ _ _ _ _ _ _ _ _ H)
    as (rng & st & _ & Hsteps & _).
  apply steps_pipeline_balance in Hsteps.
  cbn [initial_locals l_outstanding_qty] in Hsteps.
  destruct Hsteps as (Hbal & Hpos).
  exists (l_outstanding_qty st). split; [auto | lia].
Qed.

(** X12.  When the demand distribution has no value but 0 and the initial
    on-hand is not negative, nothing is ever sold or short, and every day
    ends with the stock it started with. *)
Theorem zero_demand (os : Entropy) (M N num_cycles : Z)
  (costs : CostParameters) (initial_state : InitialState)
  (distributions : DiscreteDistributions) (seed : option Z)
  (df : list DayRecord) (total_cost avg_cost_per_cycle : float) :
  Forall (fun v => v = 0) (demand_values distributions) ->
  0 <= on_hand initial_state ->
  simulate_policy os M N num_cycles costs initial_state distributions seed
    = Ok (df, total_cost, avg_cost_per_cycle) ->
  forall r, In r df ->
    Demand r = 0 /\ Sales r = 0 /\ Shortage_qty r = 0
    /\ Ending_inventory r = On_hand_start r.
Proof.
  intros Hdem Hoh H.
  destruct (simulate_policy_Ok _ _ _ _ _ _ _ _ _ _ _ H)
    as (rng & st & _ & Hsteps & _).
  apply (steps_rows M N costs distributions (fun s => 0 <= l_on_hand s))
    with (2 := Hsteps); [|exact Hoh].
  intros day sta r stb Hinv Hrow.
  destruct (day_row_on_hand _ _ _ _ _ _ _ _ Hrow) as (Hstart & Hinc & Hnext).
  destruct (day_row_sales _ _ _ _ _ _ _ _ Hrow) as (Hs & Hq & He & Hd).
  rewrite Forall_forall in Hdem. apply Hdem in Hd.
  repeat split; lia.
Qed.

(** X13.  The custom page: for every policy the sidebar lets through
    ([M >= 0], [N >= 1], 5 to 30 cycles) with an [M] in the range of the
    floats, and every cost, the call returns [N * num_cycles] rows, each
    with a demand between 0 and 4 and a stock at the start of the day
    between 0 and the larger of [M] and 11. *)
Theorem custom_policy_call_returns (os : Entropy)
  (custom_M custom_N num_cycles : Z) (cost_params : CostParameters)
  (seed : option Z) (rng : Generator) :
  0 <= custom_M < float_int_bound ->
  1 <= custom_N ->
  5 <= num_cycles <= 30 ->
  accepts DEMAND_VALUES DEMAND_PROBS = true ->
  accepts LEAD_VALUES LEAD_PROBS = true ->
  default_rng os seed = Ok rng ->
  exists df total_cost avg_cost_per_cycle,
    custom_policy_call os custom_M custom_N num_cycles cost_params seed
      = Ok (df, total_cost, avg_cost_per_cycle)
    /\ Z.of_nat (length df) = custom_N * num_cycles
    /\ forall r, In r df ->
         0 <= Demand r <= 4
         /\ 0 <= On_hand_start r <= Z.max custom_M 11.
Proof.
  intros HM HN Hc Hd Hl Hrng. unfold custom_policy_call.
  pose proof float_int_bound_large as Hb.
  assert (Hsized : float_sized custom_M num_cycles DEFAULT_INITIAL_STATE
                     DEFAULT_DISTRIBUTIONS).
  { constructor; [lia | lia | cbn; lia | repeat constructor; lia]. }
  destruct (run_returns custom_M custom_N cost_params DEFAULT_DISTRIBUTIONS
              os num_cycles DEFAULT_INITIAL_STATE seed rng Hrng
              ltac:(lia) Hd Hl ltac:(cbn; lia) ltac:(cbn; lia) Hsized)
    as (df & t & a & H).
  exists df, t, a. split; [exact H|]. split.
  - rewrite (run_length _ _ _ _ _ _ _ _ _ _ _ H). nia.
  - intros r Hr. split.
    + pose proof (run_demand _ _ _ _ _ _ _ _ _ _ _ H r Hr) as Hin.
      cbn in Hin. lia.
    + assert (Hdem : Forall (fun v => 0 <= v)
                       (demand_values DEFAULT_DISTRIBUTIONS))
        by (repeat constructor; lia).
      apply (run_position custom_M custom_N cost_params DEFAULT_DISTRIBUTIONS
               os num_cycles DEFAULT_INITIAL_STATE seed df t a
               (Z.max custom_M 11)
               ltac:(lia) ltac:(cbn; lia) ltac:(cbn; lia) ltac:(cbn; lia)
               Hdem H r Hr).
Qed.

(** X14.  The preset pages: for each of the four preset policies, 5 to 30
    cycles and every cost, the call returns [N * num_cycles] rows, between
    25 and 180 of them, and the stock at the start of a day and the order
    quantity never exceed 12. *)
Theorem preset_policy_call_returns (os : Entropy) (policy : Z * Z)
  (num_cycles : Z) (cost_params : CostParameters) (seed : option Z)
  (rng : Generator) :
  In policy PRESET_POLICIES ->
  5 <= num_cycles <= 30 ->
  accepts DEMAND_VALUES DEMAND_PROBS = true ->
  accepts LEAD_VALUES LEAD_PROBS = true ->
  default_rng os seed = Ok rng ->
  exists df total_cost avg_cost_per_cycle,
    preset_policy_call os policy num_cycles cost_params seed
      = Ok (df, total_cost, avg_cost_per_cycle)
    /\ Z.of_nat (length df) = snd policy * num_cycles
    /\ 25 <= Z.of_nat (length df) <= 180
    /\ forall r, In r df ->
         0 <= On_hand_start r <= 12 /\ 0 <= Order_qty r <= 12.
Proof.
  intros Hin Hc Hd Hl Hrng. unfold preset_policy_call.
  destruct policy as [M N].
  assert (HMN : (M = 11 \/ M = 12) /\ (N = 5 \/ N = 6)).
  { cbn in Hin.
    destruct Hin as [E | [E | [E | [E | []]]]]; injection E as <- <-; lia. }
  pose proof float_int_bound_large as Hb.
  assert (Hsized : float_sized M num_cycles DEFAULT_INITIAL_STATE
                     DEFAULT_DISTRIBUTIONS).
  { constructor; [lia | lia | cbn; lia | repeat constructor; lia]. }
  destruct (run_returns M N cost_params DEFAULT_DISTRIBUTIONS
              os num_cycles DEFAULT_INITIAL_STATE seed rng Hrng
              ltac:(lia) Hd Hl ltac:(cbn; lia) ltac:(cbn; lia) Hsized)
    as (df & t & a & H).
  exists df, t, a. split; [exact H|].
  pose proof (run_length _ _ _ _ _ _ _ _ _ _ _ H) as Hlen.
  cbn [snd]. split; [rewrite Hlen; nia|]. split; [rewrite Hlen; nia|].
  assert (Hdem : Forall (fun v => 0 <= v) (demand_values DEFAULT_DISTRIBUTIONS))
    by (repeat constructor; lia).
  intros r Hr.
  destruct (run_position M N cost_params DEFAULT_DISTRIBUTIONS
              os num_cycles DEFAULT_INITIAL_STATE seed df t a 12
              ltac:(lia) ltac:(cbn; lia) ltac:(cbn; lia) ltac:(cbn; lia)
              Hdem H r Hr) as (Hs & _ & Hq).
  split; assumption.
Qed.

(** X15.  The ordering rule, read off the ledger alone: a row orders exactly
    when its day is a review day, its ending inventory is below [M], and
    everything ordered before that day, with what was on order at the start,
    has come in by that day. *)
Theorem ordering_rule_on_the_ledger (os : Entropy) (M N num_cycles : Z)
  (costs : CostParameters) (initial_state : InitialState)
  (distributions : DiscreteDistributions) (seed : option Z)
  (df : list DayRecord) (total_cost avg_cost_per_cycle : float) :
  simulate_policy os M N num_cycles costs initial_state distributions seed
    = Ok (df, total_cost, avg_cost_per_cycle) ->
  forall k r,
    nth_error df k = Some r ->
    (0 < Order_qty r
     <-> Day r mod N = 0
         /\ Ending_inventory r < M
         /\ column_sum (map Incoming_today (firstn (S k) df))
            = outstanding_qty initial_state
              + column_sum (map Order_qty (firstn k df))).
Proof.
  intros H k r Hk.
  destruct (simulate_policy_Ok _ _ _ _ _ _ _ _ _ _ _ H)
    as (rng & st & _ & Hsteps & _).
  destruct (steps_nth _ _ _ _ _ _ _ _ _ _ Hsteps Hk)
    as (day & sta & stb & _ & Hpre & Hrow & _).
  apply steps_pipeline_balance in Hpre. destruct Hpre as (Hbal & _).
  cbn [initial_locals l_outstanding_qty] in Hbal.
  destruct (day_row_index _ _ _ _ _ _ _ _ Hrow) as (_ & Hday & _).
  rewrite (firstn_snoc _ _ _ Hk), map_app, column_sum_app.
  assert (Hdec : outstanding_at_decision sta + Incoming_today r
                 = l_outstanding_qty sta).
  { destruct (day_row_receive _ _ _ _ _ _ _ _ Hrow)
      as [(_ & _ & Hin & Hd) | (_ & Hin & Hd)]; lia. }
  rewrite Hday.
  destruct (day_row_order _ _ _ _ _ _ _ _ Hrow)
    as [(Hdue & _ & Hq & _) | (Hdue & Hzero & _)].
  - apply order_due_true in Hdue. destruct Hdue as (Hrev & Hlt & Hnone).
    apply Z.eqb_eq in Hrev. cbn. split; [intros _|lia].
    repeat split; try assumption. lia.
  - split; [lia|]. intros (Hrev & Hlt & Hsum). exfalso.
    assert (Htrue : order_due (day mod N =? 0) (Ending_inventory r) M
                      (outstanding_at_decision sta) = true).
    { apply order_due_true. apply Z.eqb_eq in Hrev. cbn in Hsum.
      repeat split; try assumption. lia. }
    congruence.
Qed.

(** X16.  With finite non-negative costs a quantity of zero costs exactly
    [0.0]: no stock at the end of the day, no holding cost; no shortage, no
    shortage cost; no order, neither purchasing nor ordering cost. *)
Theorem no_quantity_no_cost (os : Entropy) (M N num_cycles : Z)
  (costs : CostParameters) (initial_state : InitialState)
  (distributions : DiscreteDistributions) (seed : option Z)
  (df : list DayRecord) (total_cost avg_cost_per_cycle : float) :
  valid_costs costs = true ->
  simulate_policy os M N num_cycles costs initial_state distributions seed
    = Ok (df, total_cost, avg_cost_per_cycle) ->
  forall r, In r df ->
    (Ending_inventory r = 0 -> Holding_cost r = 0%float)
    /\ (Shortage_qty r = 0 -> Shortage_cost r = 0%float)
    /\ (Order_qty r = 0 ->
        Purchasing_cost r = 0%float /\ Ordering_cost r = 0%float).
Proof.
  intros Hcosts H.
  unfold valid_costs in Hcosts.
  apply andb_prop in Hcosts. destruct Hcosts as [Hcosts Ho].
  apply andb_prop in Hcosts. destruct Hcosts as [Hcosts Hu].
  apply andb_prop in Hcosts. destruct Hcosts as [Hh Hs].
  destruct (simulate_policy_Ok _ _ _ _ _ _ _ _ _ _ _ H)
    as (rng & st & _ & Hsteps & _).
  apply Forall_forall.
  eapply steps_Forall; [|exact Hsteps].
  intros day sta r stb Hrow.
  destruct (day_row_cost _ _ _ _ _ _ _ _ Hrow) as (Hhold & Hshort & _).
  split; [|split].
  - intros E. rewrite Hhold, E. apply (zero_mul_cost _ Hh).
  - intros E. rewrite Hshort, E. apply (zero_mul_cost _ Hs).
  - intros E.
    destruct (day_row_order _ _ _ _ _ _ _ _ Hrow)
      as [(Hdue & _ & Hq & _) | (_ & _ & _ & Hp & Hf & _)].
    + apply order_due_true in Hdue. lia.
    + split; assumption.
Qed.

(** X17.  A run places at most one order per review cycle: with [N >= 1] and
    [num_cycles >= 0] the rows that record an order are at most
    [num_cycles]. *)
Theorem at_most_one_order_per_cycle (os : Entropy) (M N num_cycles : Z)
  (costs : CostParameters) (initial_state : InitialState)
  (distributions : DiscreteDistributions) (seed : option Z)
  (df : list DayRecord) (total_cost avg_cost_per_cycle : float) :
  1 <= N ->
  0 <= num_cycles ->
  simulate_policy os M N num_cycles costs initial_state distributions seed
    = Ok (df, total_cost, avg_cost_per_cycle) ->
  Z.of_nat (length (filter (fun r => 0 <? Order_qty r) df)) <= num_cycles.
Proof.
  intros HN Hc H.
  destruct (simulate_policy_Ok _ _ _ _ _ _ _ _ _ _ _ H)
    as (rng & st & _ & Hsteps & _).
  apply steps_orders_on_review_days in Hsteps.
  replace num_cycles with (Z.of_nat (Z.to_nat num_cycles)) in Hsteps at 1
    by lia.
  rewrite review_days_in_range in Hsteps by exact HN. lia.
Qed.

(** X18.  With [N >= 1] every row lies in its cycle, the cycles run from 1
    to [num_cycles], and the review day of a cycle is its last day:
    [Day mod N = 0] exactly when [Day = Cycle * N]. *)
Theorem review_day_ends_its_cycle (os : Entropy) (M N num_cycles : Z)
  (costs : CostParameters) (initial_state : InitialState)
  (distributions : DiscreteDistributions) (seed : option Z)
  (df : list DayRecord) (total_cost avg_cost_per_cycle : float) :
  1 <= N ->
  simulate_policy os M N num_cycles costs initial_state distributions seed
    = Ok (df, total_cost, avg_cost_per_cycle) ->
  forall r, In r df ->
    1 <= Cycle r <= num_cycles
    /\ (Cycle r - 1) * N < Day r <= Cycle r * N
    /\ (Day r mod N = 0 <-> Day r = Cycle r * N).
Proof.
  intros HN H r Hr.
  destruct (simulate_policy_Ok _ _ _ _ _ _ _ _ _ _ _ H)
    as (rng & st & _ & Hsteps & _).
  apply In_nth_error in Hr. destruct Hr as (k & Hk).
  destruct (steps_nth _ _ _ _ _ _ _ _ _ _ Hsteps Hk)
    as (day & sta & stb & Hday & _ & Hrow & _).
  assert (Hin : In day (range 1 (N * num_cycles + 1)))
    by (eapply nth_error_In; eassumption).
  apply range_In in Hin.
  destruct (day_row_index _ _ _ _ _ _ _ _ Hrow) as (_ & -> & ->).
  pose proof (Z.div_mod (day - 1) N ltac:(lia)) as Hdiv.
  pose proof (Z.mod_pos_bound (day - 1) N ltac:(lia)) as Hmod.
  set (q := (day - 1) / N) in *.
  split; [nia|]. split; [nia|]. split.
  - intros Hz. apply Z.mod_divide in Hz; [|lia].
    destruct Hz as (t & Ht).
    assert (q < t) by nia. assert (t < q + 2) by nia.
    replace t with (q + 1) in Ht by lia. exact Ht.
  - intros E. rewrite E. apply Z_mod_mult.
Qed.

(** X19.  The costs stay out of the flow of units: under one seed, a run
    with other cost parameters returns as well, and its rows agree with the
    rows of the first run in every column that is not a cost. *)
Theorem costs_do_not_move_stock (os1 os2 : Entropy) (M N num_cycles : Z)
  (costs1 costs2 : CostParameters) (initial_state : InitialState)
  (distributions : DiscreteDistributions) (seed : Z)
  (df1 : list DayRecord) (total1 avg1 : float) :
  simulate_policy os1 M N num_cycles costs1 initial_state distributions
    (Some seed) = Ok (df1, total1, avg1) ->
  exists df2 total2 avg2,
    simulate_policy os2 M N num_cycles costs2 initial_state distributions
      (Some seed) = Ok (df2, total2, avg2)
    /\ map quantities df2 = map quantities df1.
Proof.
  unfold simulate_policy, default_rng.
  destruct (seeded seed) as [rng|e]; cbn [bind]; [|discriminate].
  intros H.
  apply bind_Ok in H. destruct H as (st1 & Hloop & H).
  apply bind_Ok in H. destruct H as (a1 & Hdiv & H).
  injection H as <- _ _.
  destruct (for_days_flow M N costs1 costs2 distributions
              (range 1 (N * num_cycles + 1))
              (initial_locals initial_state rng)
              (initial_locals initial_state rng) st1
              ltac:(repeat split) Hloop)
    as (st2 & Hloop2 & Hflow).
  rewrite Hloop2. cbn [bind]. unfold py_truediv, py_float in *.
  destruct (fits_float num_cycles); cbn [bind] in *; [|discriminate].
  destruct (num_cycles =? 0); [discriminate|].
  eexists. eexists. eexists. split; [reflexivity|].
  destruct Hflow as (_ & _ & _ & _ & Hrec). now symmetry.
Qed.

(** X20.  An order on the way at the start, with [lead_remaining >= 0] days
    left, comes in whole on the row of index [lead_remaining], that is on
    day [lead_remaining + 1]; before that nothing comes in and nothing is
    ordered. *)
Theorem initial_order_arrival (os : Entropy) (M N num_cycles : Z)
  (costs : CostParameters) (initial_state : InitialState)
  (distributions : DiscreteDistributions) (seed : option Z)
  (df : list DayRecord) (total_cost avg_cost_per_cycle : float) :
  0 < outstanding_qty initial_state ->
  0 <= lead_remaining initial_state ->
  simulate_policy os M N num_cycles costs initial_state distributions seed
    = Ok (df, total_cost, avg_cost_per_cycle) ->
  (forall i r,
     (i < Z.to_nat (lead_remaining initial_state))%nat ->
     nth_error df i = Some r ->
     Incoming_today r = 0 /\ Order_qty r = 0)
  /\ (forall r,
        nth_error df (Z.to_nat (lead_remaining initial_state)) = Some r ->
        Incoming_today r = outstanding_qty initial_state
        /\ Day r = lead_remaining initial_state + 1).
Proof.
  intros Hout Hrem H.
  destruct (simulate_policy_Ok _ _ _ _ _ _ _ _ _ _ _ H)
    as (rng & st & _ & Hsteps & _).
  destruct (steps_lead_countdown M N costs distributions
              (Z.to_nat (lead_remaining initial_state)) _ _ _ _ Hsteps)
    as (Hwait & Hcome).
  - exact Hout.
  - cbn. lia.
  - split; [exact Hwait|]. intros r Hr. split; [exact (Hcome r Hr)|].
    destruct (steps_nth _ _ _ _ _ _ _ _ _ _ Hsteps Hr)
      as (day & sta & stb & Hday & _ & Hrow & _).
    destruct (day_row_index _ _ _ _ _ _ _ _ Hrow) as (_ & -> & _).
    apply range_nth in Hday. lia.
Qed.

(** X21.  An order on the way at the start with a negative [lead_remaining]
    never comes in and blocks every later order: no row receives or orders
    anything, and the lead time left stays what it was. *)
Theorem negative_lead_blocks_orders (os : Entropy) (M N num_cycles : Z)
  (costs : CostParameters) (initial_state : InitialState)
  (distributions : DiscreteDistributions) (seed : option Z)
  (df : list DayRecord) (total_cost avg_cost_per_cycle : float) :
  0 < outstanding_qty initial_state ->
  lead_remaining initial_state < 0 ->
  simulate_policy os M N num_cycles costs initial_state distributions seed
    = Ok (df, total_cost, avg_cost_per_cycle) ->
  forall r, In r df ->
    Incoming_today r = 0
    /\ Order_qty r = 0
    /\ Lead_time_new_order r = None
    /\ Lead_remaining_end r = lead_remaining initial_state.
Proof.
  intros Hout Hrem H.
  destruct (simulate_policy_Ok _ _ _ _ _ _ _ _ _ _ _ H)
    as (rng & st & _ & Hsteps & _).
  apply (steps_rows M N costs distributions
           (fun s => l_outstanding_qty s = outstanding_qty initial_state
                     /\ l_lead_remaining s = lead_remaining initial_state))
    with (2 := Hsteps); [|split; reflexivity].
  intros day sta r stb (Hq & Hl) Hrow.
  destruct (day_row_receive _ _ _ _ _ _ _ _ Hrow)
    as [(Hzero & _) | (_ & Hin & Hdec)]; [lia|].
  destruct (day_row_order _ _ _ _ _ _ _ _ Hrow)
    as [(Hdue & _) | (_ & Hzero & Hnone & _ & _ & Hkeep & Hlead & Hend)].
  { apply order_due_true in Hdue. lia. }
  assert (Hsame : l_lead_remaining stb = lead_remaining initial_state).
  { rewrite Hlead, Hdec. unfold decrease_lead.
    replace (l_lead_remaining sta >? 0) with false by (symmetry; lia).
    rewrite andb_false_r. exact Hl. }
  repeat split; try assumption; lia.
Qed.

End Run.

(** ** The further properties on runs of the reference generator *)

Lemma demand_split_witness :
  simulate_policy (NP := reference_numpy) 0 11 5 DEFAULT_NUM_CYCLES
    DEFAULT_COSTS DEFAULT_INITIAL_STATE DEFAULT_DISTRIBUTIONS (Some 42)
  = Ok (policy_A_rows, policy_A_total, policy_A_average)
  /\ Forall (fun r => Sales r + Shortage_qty r = Demand r) policy_A_rows.
Proof.
  split; [exact policy_A_run_Ok|].
  apply Forall_forall. intros r Hr.
  exact (proj1 (demand_split (NP := reference_numpy) 0 11 5
                  DEFAULT_NUM_CYCLES DEFAULT_COSTS DEFAULT_INITIAL_STATE
                  DEFAULT_DISTRIBUTIONS (Some 42)
                  policy_A_rows policy_A_total policy_A_average
                  policy_A_run_Ok r Hr)).
Defined.

Lemma order_up_to_witness :
  simulate_policy (NP := reference_numpy) 0 11 5 DEFAULT_NUM_CYCLES
    DEFAULT_COSTS DEFAULT_INITIAL_STATE DEFAULT_DISTRIBUTIONS (Some 42)
  = Ok (policy_A_rows, policy_A_total, policy_A_average)
  /\ Forall (fun r => Order_qty r = 0 <-> Lead_time_new_order r = None)
       policy_A_rows.
Proof.
  split; [exact policy_A_run_Ok|].
  apply Forall_forall. intros r Hr.
  exact (proj1 (proj2 (order_up_to (NP := reference_numpy) 0 11 5
                  DEFAULT_NUM_CYCLES DEFAULT_COSTS DEFAULT_INITIAL_STATE
                  DEFAULT_DISTRIBUTIONS (Some 42)
                  policy_A_rows policy_A_total policy_A_average
                  policy_A_run_Ok r Hr))).
Defined.

(** The order of day 25, 10 units with a lead time of 2, comes in on
    day 27. *)
Lemma order_arrival_witness :
  simulate_policy (NP := reference_numpy) 0 11 5 DEFAULT_NUM_CYCLES
    DEFAULT_COSTS DEFAULT_INITIAL_STATE DEFAULT_DISTRIBUTIONS (Some 42)
  = Ok (policy_A_rows, policy_A_total, policy_A_average)
  /\ exists r r',
       nth_error policy_A_rows 24 = Some r
       /\ Lead_time_new_order r = Some 2
       /\ 0 <= 2
       /\ nth_error policy_A_rows 26 = Some r'
       /\ Incoming_today r' = 10.
Proof.
  split; [exact policy_A_run_Ok|].
  eexists. eexists.
  split; [reflexivity|]. split; [reflexivity|]. split; [lia|].
  split; [reflexivity|].
  exact (proj2 (order_arrival (NP := reference_numpy) 0 11 5
                  DEFAULT_NUM_CYCLES DEFAULT_COSTS DEFAULT_INITIAL_STATE
                  DEFAULT_DISTRIBUTIONS (Some 42)
                  policy_A_rows policy_A_total policy_A_average
                  policy_A_run_Ok 24%nat _ 2 eq_refl eq_refl ltac:(lia))
               _ eq_refl).
Defined.

Lemma stock_bounded_by_position_witness :
  valid_config (NP := reference_numpy) 11 5 DEFAULT_NUM_CYCLES DEFAULT_COSTS
    DEFAULT_INITIAL_STATE DEFAULT_DISTRIBUTIONS
  /\ Forall (fun v => 0 <= v) DEMAND_VALUES
  /\ simulate_policy (NP := reference_numpy) 0 11 5 DEFAULT_NUM_CYCLES
       DEFAULT_COSTS DEFAULT_INITIAL_STATE DEFAULT_DISTRIBUTIONS (Some 42)
     = Ok (policy_A_rows, policy_A_total, policy_A_average)
  /\ Forall (fun r => 0 <= On_hand_start r <= 11) policy_A_rows.
Proof.
  assert (Hdem : Forall (fun v => 0 <= v) DEMAND_VALUES)
    by (repeat constructor; lia).
  split; [exact policy_A_valid|].
  split; [exact Hdem|].
  split; [exact policy_A_run_Ok|].
  apply Forall_forall. intros r Hr.
  exact (proj1 (stock_bounded_by_position (NP := reference_numpy) 0 11 5
                  DEFAULT_NUM_CYCLES DEFAULT_COSTS DEFAULT_INITIAL_STATE
                  DEFAULT_DISTRIBUTIONS (Some 42)
                  policy_A_rows policy_A_total policy_A_average
                  policy_A_valid Hdem policy_A_run_Ok r Hr)).
Defined.

Lemma state_never_negative_witness :
  valid_config (NP := reference_numpy) 11 5 DEFAULT_NUM_CYCLES DEFAULT_COSTS
    DEFAULT_INITIAL_STATE DEFAULT_DISTRIBUTIONS
  /\ Forall (fun v => 0 <= v) LEAD_VALUES
  /\ simulate_policy (NP := reference_numpy) 0 11 5 DEFAULT_NUM_CYCLES
       DEFAULT_COSTS DEFAULT_INITIAL_STATE DEFAULT_DISTRIBUTIONS (Some 42)
     = Ok (policy_A_rows, policy_A_total, policy_A_average)
  /\ Forall (fun r => 0 <= On_hand_start r) policy_A_rows.
Proof.
  assert (Hlead : Forall (fun v => 0 <= v) LEAD_VALUES)
    by (repeat constructor; lia).
  split; [exact policy_A_valid|].
  split; [exact Hlead|].
  split; [exact policy_A_run_Ok|].
  apply Forall_forall. intros r Hr.
  exact (proj1 (state_never_negative (NP := reference_numpy) 0 11 5
                  DEFAULT_NUM_CYCLES DEFAULT_COSTS DEFAULT_INITIAL_STATE
                  DEFAULT_DISTRIBUTIONS (Some 42)
                  policy_A_rows policy_A_total policy_A_average
                  policy_A_valid Hlead policy_A_run_Ok r Hr)).
Defined.

(** No cycle at all: the division of the total by [num_cycles] raises. *)
Lemma exceptions_of_a_call_witness :
  default_rng (NP := reference_numpy) 0 (Some 42) = Ok 42
  /\ simulate_policy (NP := reference_numpy) 0 11 5 0 DEFAULT_COSTS
       DEFAULT_INITIAL_STATE DEFAULT_DISTRIBUTIONS (Some 42)
     = Raise ZeroDivisionError.
Proof.
  split; [reflexivity|].
  exact (proj2 (proj1 (exceptions_of_a_call (NP := reference_numpy) 0 11 5 0
                         DEFAULT_COSTS DEFAULT_INITIAL_STATE
                         DEFAULT_DISTRIBUTIONS (Some 42) 42 eq_refl))
           eq_refl).
Defined.

(** A review period of 0 days: ten cycles of no day return nothing, and
    [float_int_bound] cycles of no day stop at the average. *)
Lemma empty_horizon_witness :
  default_rng (NP := reference_numpy) 0 (Some 42) = Ok 42
  /\ 0 * DEFAULT_NUM_CYCLES <= 0
  /\ DEFAULT_NUM_CYCLES <> 0
  /\ Z.abs DEFAULT_NUM_CYCLES < float_int_bound
  /\ simulate_policy (NP := reference_numpy) 0 11 0 DEFAULT_NUM_CYCLES
       DEFAULT_COSTS DEFAULT_INITIAL_STATE DEFAULT_DISTRIBUTIONS (Some 42)
     = Ok ([], 0%float, (0 / float_of_int DEFAULT_NUM_CYCLES)%float)
  /\ simulate_policy (NP := reference_numpy) 0 11 0 float_int_bound
       DEFAULT_COSTS DEFAULT_INITIAL_STATE DEFAULT_DISTRIBUTIONS (Some 42)
     = Raise OverflowError.
Proof.
  assert (Hdays : 0 * DEFAULT_NUM_CYCLES <= 0) by (vm_compute; discriminate).
  assert (Hc : DEFAULT_NUM_CYCLES <> 0) by discriminate.
  assert (Hfit : Z.abs DEFAULT_NUM_CYCLES < float_int_bound)
    by (vm_compute; reflexivity).
  assert (Hdays' : 0 * float_int_bound <= 0) by (vm_compute; discriminate).
  assert (Hc' : float_int_bound <> 0) by (vm_compute; discriminate).
  assert (Hbig : float_int_bound <= Z.abs float_int_bound)
    by (vm_compute; discriminate).
  split; [reflexivity|]. split; [exact Hdays|]. split; [exact Hc|].
  split; [exact Hfit|]. split.
  - exact (proj1 (empty_horizon (NP := reference_numpy) 0 11 0
                    DEFAULT_NUM_CYCLES DEFAULT_COSTS DEFAULT_INITIAL_STATE
                    DEFAULT_DISTRIBUTIONS (Some 42) 42 eq_refl Hdays Hc)
             Hfit).
  - exact (proj2 (empty_horizon (NP := reference_numpy) 0 11 0
                    float_int_bound DEFAULT_COSTS DEFAULT_INITIAL_STATE
                    DEFAULT_DISTRIBUTIONS (Some 42) 42 eq_refl Hdays' Hc')
             Hbig).
Defined.

Lemma returns_for_accepted_distributions_witness :
  default_rng (NP := reference_numpy) 0 (Some 42) = Ok 42
  /\ DEFAULT_NUM_CYCLES <> 0
  /\ @accepts reference_numpy DEMAND_VALUES DEMAND_PROBS = true
  /\ @accepts reference_numpy LEAD_VALUES LEAD_PROBS = true
  /\ 0 <= on_hand DEFAULT_INITIAL_STATE
  /\ 0 <= outstanding_qty DEFAULT_INITIAL_STATE
  /\ float_sized 11 DEFAULT_NUM_CYCLES DEFAULT_INITIAL_STATE
       DEFAULT_DISTRIBUTIONS
  /\ exists df total_cost avg_cost_per_cycle,
       simulate_policy (NP := reference_numpy) 0 11 5 DEFAULT_NUM_CYCLES
         DEFAULT_COSTS DEFAULT_INITIAL_STATE DEFAULT_DISTRIBUTIONS (Some 42)
       = Ok (df, total_cost, avg_cost_per_cycle)
       /\ length df = 50%nat.
Proof.
  assert (Hc : DEFAULT_NUM_CYCLES <> 0) by discriminate.
  assert (Hd : @accepts reference_numpy DEMAND_VALUES DEMAND_PROBS = true)
    by (vm_compute; reflexivity).
  assert (Hl : @accepts reference_numpy LEAD_VALUES LEAD_PROBS = true)
    by (vm_compute; reflexivity).
  assert (Hoh : 0 <= on_hand DEFAULT_INITIAL_STATE)
    by (vm_compute; discriminate).
  assert (Hout : 0 <= outstanding_qty DEFAULT_INITIAL_STATE)
    by (vm_compute; discriminate).
  split; [reflexivity|]. split; [exact Hc|].
  split; [exact Hd|]. split; [exact Hl|].
  split; [exact Hoh|]. split; [exact Hout|]. split; [exact policy_A_sized|].
  exact (returns_for_accepted_distributions (NP := reference_numpy) 0 11 5
           DEFAULT_NUM_CYCLES DEFAULT_COSTS DEFAULT_INITIAL_STATE
           DEFAULT_DISTRIBUTIONS (Some 42) 42 eq_refl Hc Hd Hl Hoh Hout
           policy_A_sized).
Defined.

(** The first cycle of the ten cycles of policy A is the run of one cycle. *)
Lemma longer_horizon_extends_witness :
  0 <= 5
  /\ 1 <= 1 <= DEFAULT_NUM_CYCLES
  /\ simulate_policy (NP := reference_numpy) 0 11 5 DEFAULT_NUM_CYCLES
       DEFAULT_COSTS DEFAULT_INITIAL_STATE DEFAULT_DISTRIBUTIONS (Some 42)
     = Ok (policy_A_rows, policy_A_total, policy_A_average)
  /\ exists df1 total1 avg1 rest,
       simulate_policy (NP := reference_numpy) 0 11 5 1
         DEFAULT_COSTS DEFAULT_INITIAL_STATE DEFAULT_DISTRIBUTIONS (Some 42)
       = Ok (df1, total1, avg1)
       /\ policy_A_rows = df1 ++ rest.
Proof.
  assert (HN : 0 <= 5) by lia.
  assert (Hc : 1 <= 1 <= DEFAULT_NUM_CYCLES)
    by (split; vm_compute; discriminate).
  split; [exact HN|]. split; [exact Hc|].
  split; [exact policy_A_run_Ok|].
  exact (longer_horizon_extends (NP := reference_numpy) 0 0 11 5 1
           DEFAULT_NUM_CYCLES DEFAULT_COSTS DEFAULT_INITIAL_STATE
           DEFAULT_DISTRIBUTIONS 42
           policy_A_rows policy_A_total policy_A_average
           HN Hc policy_A_run_Ok).
Defined.

Lemma stock_balance_witness :
  simulate_policy (NP := reference_numpy) 0 11 5 DEFAULT_NUM_CYCLES
    DEFAULT_COSTS DEFAULT_INITIAL_STATE DEFAULT_DISTRIBUTIONS (Some 42)
  = Ok (policy_A_rows, policy_A_total, policy_A_average)
  /\ exists r,
       nth_error policy_A_rows 49 = Some r
       /\ Ending_inventory r
          = 3 + column_sum (map Incoming_today policy_A_rows)
            - column_sum (map Sales policy_A_rows).
Proof.
  split; [exact policy_A_run_Ok|].
  eexists. split; [reflexivity|].
  exact (stock_balance (NP := reference_numpy) 0 11 5
           DEFAULT_NUM_CYCLES DEFAULT_COSTS DEFAULT_INITIAL_STATE
           DEFAULT_DISTRIBUTIONS (Some 42)
           policy_A_rows policy_A_total policy_A_average
           policy_A_run_Ok 49%nat _ eq_refl).
Defined.

Lemma pipeline_balance_witness :
  0 <= outstanding_qty DEFAULT_INITIAL_STATE
  /\ simulate_policy (NP := reference_numpy) 0 11 5 DEFAULT_NUM_CYCLES
       DEFAULT_COSTS DEFAULT_INITIAL_STATE DEFAULT_DISTRIBUTIONS (Some 42)
     = Ok (policy_A_rows, policy_A_total, policy_A_average)
  /\ exists on_order_at_end,
       0 <= on_order_at_end
       /\ column_sum (map Incoming_today policy_A_rows) + on_order_at_end
          = outstanding_qty DEFAULT_INITIAL_STATE
            + column_sum (map Order_qty policy_A_rows).
Proof.
  assert (Hout : 0 <= outstanding_qty DEFAULT_INITIAL_STATE)
    by (vm_compute; discriminate).
  split; [exact Hout|].
  split; [exact policy_A_run_Ok|].
  exact (pipeline_balance (NP := reference_numpy) 0 11 5
           DEFAULT_NUM_CYCLES DEFAULT_COSTS DEFAULT_INITIAL_STATE
           DEFAULT_DISTRIBUTIONS (Some 42)
           policy_A_rows policy_A_total policy_A_average
           Hout policy_A_run_Ok).
Defined.

Lemma zero_demand_witness :
  Forall (fun v => v = 0) (demand_values (point_distributions 0 0))
  /\ 0 <= 5
  /\ simulate_policy (NP := reference_numpy) 0 7 1 2 DEFAULT_COSTS
       {| on_hand := 5; outstanding_qty := 0; lead_remaining := 0 |}
       (point_distributions 0 0) (Some 42)
     = Ok (lead_zero_rows, 350%float, 175%float)
  /\ Forall (fun r => Sales r = 0) lead_zero_rows.
Proof.
  assert (Hdem : Forall (fun v => v = 0)
                   (demand_values (point_distributions 0 0)))
    by (repeat constructor).
  assert (Hoh : 0 <= 5) by lia.
  split; [exact Hdem|]. split; [exact Hoh|].
  split; [exact lead_zero_run_Ok|].
  apply Forall_forall. intros r Hr.
  exact (proj1 (proj2 (zero_demand (NP := reference_numpy) 0 7 1 2
                  DEFAULT_COSTS
                  {| on_hand := 5; outstanding_qty := 0; lead_remaining := 0 |}
                  (point_distributions 0 0) (Some 42)
                  lead_zero_rows 350%float 175%float
                  Hdem Hoh lead_zero_run_Ok r Hr))).
Defined.

Lemma custom_policy_call_returns_witness :
  0 <= 11 < float_int_bound
  /\ 1 <= 5
  /\ 5 <= 10 <= 30
  /\ @accepts reference_numpy DEMAND_VALUES DEMAND_PROBS = true
  /\ @accepts reference_numpy LEAD_VALUES LEAD_PROBS = true
  /\ default_rng (NP := reference_numpy) 0 (Some 42) = Ok 42
  /\ exists df total_cost avg_cost_per_cycle,
       custom_policy_call (NP := reference_numpy) 0 11 5 10 DEFAULT_COSTS
         (Some 42) = Ok (df, total_cost, avg_cost_per_cycle)
       /\ Z.of_nat (length df) = 5 * 10.
Proof.
  assert (HM : 0 <= 11 < float_int_bound)
    by (split; [lia | vm_compute; reflexivity]).
  assert (HN : 1 <= 5) by lia.
  assert (Hc : 5 <= 10 <= 30) by lia.
  assert (Hd : @accepts reference_numpy DEMAND_VALUES DEMAND_PROBS = true)
    by (vm_compute; reflexivity).
  assert (Hl : @accepts reference_numpy LEAD_VALUES LEAD_PROBS = true)
    by (vm_compute; reflexivity).
  split; [exact HM|]. split; [exact HN|]. split; [exact Hc|].
  split; [exact Hd|]. split; [exact Hl|]. split; [reflexivity|].
  destruct (custom_policy_call_returns (NP := reference_numpy) 0 11 5 10
              DEFAULT_COSTS (Some 42) 42 HM HN Hc Hd Hl eq_refl)
    as (df & t & a & Hrun & Hlen & _).
  exists df, t, a. split; [exact Hrun | exact Hlen].
Defined.

Lemma preset_policy_call_returns_witness :
  In (11, 5) PRESET_POLICIES
  /\ 5 <= 10 <= 30
  /\ @accepts reference_numpy DEMAND_VALUES DEMAND_PROBS = true
  /\ @accepts reference_numpy LEAD_VALUES LEAD_PROBS = true
  /\ default_rng (NP := reference_numpy) 0 (Some 42) = Ok 42
  /\ exists df total_cost avg_cost_per_cycle,
       preset_policy_call (NP := reference_numpy) 0 (11, 5) 10 DEFAULT_COSTS
         (Some 42) = Ok (df, total_cost, avg_cost_per_cycle)
       /\ 25 <= Z.of_nat (length df) <= 180.
Proof.
  assert (Hin : In (11, 5) PRESET_POLICIES) by (left; reflexivity).
  assert (Hc : 5 <= 10 <= 30) by lia.
  assert (Hd : @accepts reference_numpy DEMAND_VALUES DEMAND_PROBS = true)
    by (vm_compute; reflexivity).
  assert (Hl : @accepts reference_numpy LEAD_VALUES LEAD_PROBS = true)
    by (vm_compute; reflexivity).
  split; [exact Hin|]. split; [exact Hc|].
  split; [exact Hd|]. split; [exact Hl|]. split; [reflexivity|].
  destruct (preset_policy_call_returns (NP := reference_numpy) 0 (11, 5) 10
              DEFAULT_COSTS (Some 42) 42 Hin Hc Hd Hl eq_refl)
    as (df & t & a & Hrun & _ & Hlen & _).
  exists df, t, a. split; [exact Hrun | exact Hlen].
Defined.

(** Day 5 of policy A orders: it is a review day, it ends below [M], and the
    8 units on order at the start came in before. *)
Lemma ordering_rule_on_the_ledger_witness :
  simulate_policy (NP := reference_numpy) 0 11 5 DEFAULT_NUM_CYCLES
    DEFAULT_COSTS DEFAULT_INITIAL_STATE DEFAULT_DISTRIBUTIONS (Some 42)
  = Ok (policy_A_rows, policy_A_total, policy_A_average)
  /\ exists r,
       nth_error policy_A_rows 4 = Some r
       /\ 0 < Order_qty r
       /\ Day r mod 5 = 0
       /\ Ending_inventory r < 11.
Proof.
  split; [exact policy_A_run_Ok|].
  eexists. split; [reflexivity|]. split; [reflexivity|].
  destruct (proj1 (ordering_rule_on_the_ledger (NP := reference_numpy) 0 11 5
                     DEFAULT_NUM_CYCLES DEFAULT_COSTS DEFAULT_INITIAL_STATE
                     DEFAULT_DISTRIBUTIONS (Some 42)
                     policy_A_rows policy_A_total policy_A_average
                     policy_A_run_Ok 4%nat _ eq_refl) eq_refl)
    as (Hrev & Hlt & _).
  split; [exact Hrev | exact Hlt].
Defined.

Lemma no_quantity_no_cost_witness :
  valid_costs DEFAULT_COSTS = true
  /\ simulate_policy (NP := reference_numpy) 0 11 5 DEFAULT_NUM_CYCLES
       DEFAULT_COSTS DEFAULT_INITIAL_STATE DEFAULT_DISTRIBUTIONS (Some 42)
     = Ok (policy_A_rows, policy_A_total, policy_A_average)
  /\ Forall (fun r => Shortage_qty r = 0 -> Shortage_cost r = 0%float)
       policy_A_rows.
Proof.
  assert (Hcosts : valid_costs DEFAULT_COSTS = true)
    by (vm_compute; reflexivity).
  split; [exact Hcosts|].
  split; [exact policy_A_run_Ok|].
  apply Forall_forall. intros r Hr.
  exact (proj1 (proj2 (no_quantity_no_cost (NP := reference_numpy) 0 11 5
                  DEFAULT_NUM_CYCLES DEFAULT_COSTS DEFAULT_INITIAL_STATE
                  DEFAULT_DISTRIBUTIONS (Some 42)
                  policy_A_rows policy_A_total policy_A_average
                  Hcosts policy_A_run_Ok r Hr))).
Defined.

Lemma at_most_one_order_per_cycle_witness :
  1 <= 5
  /\ 0 <= DEFAULT_NUM_CYCLES
  /\ simulate_policy (NP := reference_numpy) 0 11 5 DEFAULT_NUM_CYCLES
       DEFAULT_COSTS DEFAULT_INITIAL_STATE DEFAULT_DISTRIBUTIONS (Some 42)
     = Ok (policy_A_rows, policy_A_total, policy_A_average)
  /\ Z.of_nat (length (filter (fun r => 0 <? Order_qty r) policy_A_rows))
     <= DEFAULT_NUM_CYCLES.
Proof.
  assert (HN : 1 <= 5) by lia.
  assert (Hc : 0 <= DEFAULT_NUM_CYCLES) by (vm_compute; discriminate).
  split; [exact HN|]. split; [exact Hc|].
  split; [exact policy_A_run_Ok|].
  exact (at_most_one_order_per_cycle (NP := reference_numpy) 0 11 5
           DEFAULT_NUM_CYCLES DEFAULT_COSTS DEFAULT_INITIAL_STATE
           DEFAULT_DISTRIBUTIONS (Some 42)
           policy_A_rows policy_A_total policy_A_average
           HN Hc policy_A_run_Ok).
Defined.

Lemma review_day_ends_its_cycle_witness :
  1 <= 5
  /\ simulate_policy (NP := reference_numpy) 0 11 5 DEFAULT_NUM_CYCLES
       DEFAULT_COSTS DEFAULT_INITIAL_STATE DEFAULT_DISTRIBUTIONS (Some 42)
     = Ok (policy_A_rows, policy_A_total, policy_A_average)
  /\ Forall (fun r => 1 <= Cycle r <= DEFAULT_NUM_CYCLES) policy_A_rows.
Proof.
  assert (HN : 1 <= 5) by lia.
  split; [exact HN|].
  split; [exact policy_A_run_Ok|].
  apply Forall_forall. intros r Hr.
  exact (proj1 (review_day_ends_its_cycle (NP := reference_numpy) 0 11 5
                  DEFAULT_NUM_CYCLES DEFAULT_COSTS DEFAULT_INITIAL_STATE
                  DEFAULT_DISTRIBUTIONS (Some 42)
                  policy_A_rows policy_A_total policy_A_average
                  HN policy_A_run_Ok r Hr)).
Defined.

(** Policy A with every cost at 1: the same units on the same days. *)
Lemma costs_do_not_move_stock_witness :
  simulate_policy (NP := reference_numpy) 0 11 5 DEFAULT_NUM_CYCLES
    DEFAULT_COSTS DEFAULT_INITIAL_STATE DEFAULT_DISTRIBUTIONS (Some 42)
  = Ok (policy_A_rows, policy_A_total, policy_A_average)
  /\ exists df2 total2 avg2,
       simulate_policy (NP := reference_numpy) 0 11 5 DEFAULT_NUM_CYCLES
         {| holding_cost := 1; shortage_cost := 1; unit_cost := 1;
            ordering_cost := 1 |}
         DEFAULT_INITIAL_STATE DEFAULT_DISTRIBUTIONS (Some 42)
       = Ok (df2, total2, avg2)
       /\ map quantities df2 = map quantities policy_A_rows.
Proof.
  split; [exact policy_A_run_Ok|].
  exact (costs_do_not_move_stock (NP := reference_numpy) 0 0 11 5
           DEFAULT_NUM_CYCLES DEFAULT_COSTS
           {| holding_cost := 1; shortage_cost := 1; unit_cost := 1;
              ordering_cost := 1 |}
           DEFAULT_INITIAL_STATE DEFAULT_DISTRIBUTIONS 42
           policy_A_rows policy_A_total policy_A_average
           policy_A_run_Ok).
Defined.

(** The 8 units on order at the start of policy A, with 2 days left, come
    in on day 3. *)
Lemma initial_order_arrival_witness :
  0 < outstanding_qty DEFAULT_INITIAL_STATE
  /\ 0 <= lead_remaining DEFAULT_INITIAL_STATE
  /\ simulate_policy (NP := reference_numpy) 0 11 5 DEFAULT_NUM_CYCLES
       DEFAULT_COSTS DEFAULT_INITIAL_STATE DEFAULT_DISTRIBUTIONS (Some 42)
     = Ok (policy_A_rows, policy_A_total, policy_A_average)
  /\ exists r,
       nth_error policy_A_rows 2 = Some r
       /\ Incoming_today r = 8 /\ Day r = 3.
Proof.
  assert (Hout : 0 < outstanding_qty DEFAULT_INITIAL_STATE) by reflexivity.
  assert (Hrem : 0 <= lead_remaining DEFAULT_INITIAL_STATE)
    by (vm_compute; discriminate).
  split; [exact Hout|]. split; [exact Hrem|].
  split; [exact policy_A_run_Ok|].
  eexists. split; [reflexivity|].
  exact (proj2 (initial_order_arrival (NP := reference_numpy) 0 11 5
                  DEFAULT_NUM_CYCLES DEFAULT_COSTS DEFAULT_INITIAL_STATE
                  DEFAULT_DISTRIBUTIONS (Some 42)
                  policy_A_rows policy_A_total policy_A_average
                  Hout Hrem policy_A_run_Ok) _ eq_refl).
Defined.

Lemma stuck_order_run_Ok :
  simulate_policy (NP := reference_numpy) 0 11 1 3 DEFAULT_COSTS
    {| on_hand := 3; outstanding_qty := 8; lead_remaining := -1 |}
    DEFAULT_DISTRIBUTIONS (Some 42)
  = Ok (stuck_order_rows, float_sum (map Total_cost_day stuck_order_rows),
        (float_sum (map Total_cost_day stuck_order_rows) / 3)%float).
Proof. vm_compute. reflexivity. Qed.

Lemma negative_lead_blocks_orders_witness :
  0 < 8
  /\ -1 < 0
  /\ simulate_policy (NP := reference_numpy) 0 11 1 3 DEFAULT_COSTS
       {| on_hand := 3; outstanding_qty := 8; lead_remaining := -1 |}
       DEFAULT_DISTRIBUTIONS (Some 42)
     = Ok (stuck_order_rows, float_sum (map Total_cost_day stuck_order_rows),
           (float_sum (map Total_cost_day stuck_order_rows) / 3)%float)
  /\ length stuck_order_rows = 3%nat
  /\ Forall (fun r => Incoming_today r = 0 /\ Order_qty r = 0)
       stuck_order_rows.
Proof.
  assert (Hout : 0 < 8) by lia.
  assert (Hrem : -1 < 0) by lia.
  split; [exact Hout|]. split; [exact Hrem|].
  split; [exact stuck_order_run_Ok|].
  split; [reflexivity|].
  apply Forall_forall. intros r Hr.
  destruct (negative_lead_blocks_orders (NP := reference_numpy) 0 11 1 3
              DEFAULT_COSTS
              {| on_hand := 3; outstanding_qty := 8; lead_remaining := -1 |}
              DEFAULT_DISTRIBUTIONS (Some 42)
              stuck_order_rows
              (float_sum (map Total_cost_day stuck_order_rows))
              (float_sum (map Total_cost_day stuck_order_rows) / 3)%float
              Hout Hrem stuck_order_run_Ok r Hr)
    as (Hin & Hq & _).
  split; [exact Hin | exact Hq].
Defined.
